(** * RampedPyrox: the model / L-curve core and the timedata helpers

    A shallow embedding of
      - [rampedpyrox/model/model.py]          (classes [Model], [Daem])
      - [rampedpyrox/timedata/timedata_helper.py]
        ([_assert_lent], [_derivatize], [_rpo_extract_tg])
    and the properties of them that the specification states.

    Python values are a small universe [pyval]; a raised exception is a
    value of [exn]; a function that may raise returns a [result]; a function
    that also warns or calls an external routine runs in the monad [Py],
    which records what was issued or called, in order.

    numpy's floating-point primitives ([+], [/], [log10], [**], comparisons)
    are kept abstract behind the class [Float64]: every theorem holds for
    whatever they compute.  [QNum] interprets them by exact rationals, to run
    the definitions on concrete inputs. *)

From Stdlib Require Import ZArith QArith Qabs Qround List String Ascii Bool Lia.
Import ListNotations.
Local Open Scope string_scope.
Local Open Scope Z_scope.

Set Implicit Arguments.
Set Warnings "-register-all".

(** ** Exceptions and results *)

(** A raised exception: its class name and its message. *)
Record exn : Type := Exn { exn_class : string; exn_msg : string }.

Definition TypeError (msg : string) : exn := Exn "TypeError" msg.
Definition ValueError (msg : string) : exn := Exn "ValueError" msg.
Definition NameError (name : string) : exn :=
  Exn "NameError" ("name '" ++ name ++ "' is not defined").
Definition AttributeError (name : string) : exn :=
  Exn "AttributeError" ("object has no attribute '" ++ name ++ "'").
Definition IndexError (msg : string) : exn := Exn "IndexError" msg.
Definition NotImplementedError : exn := Exn "NotImplementedError" "".

Inductive result (A : Type) : Type :=
| Ok (a : A)
| Raise (e : exn).
Arguments Ok {A} a.
Arguments Raise {A} e.

Definition rbind {A B} (r : result A) (f : A -> result B) : result B :=
  match r with
  | Ok a => f a
  | Raise e => Raise e
  end.

Definition is_ok {A} (r : result A) : bool :=
  match r with Ok _ => true | Raise _ => false end.

Declare Scope res_scope.
Delimit Scope res_scope with res.
Notation "x <~ c ;; k" := (rbind c (fun x => k))
  (at level 61, c at next level, right associativity) : res_scope.
Notation "' p <~ c ;; k" := (rbind c (fun x => let p := x in k))
  (at level 61, p pattern, c at next level, right associativity) : res_scope.

(** ** numpy's float64 primitives *)

Class Float64 (F : Type) : Type := {
  f_of_Q : Q -> F;               (* a float literal, an int converted *)
  f_add : F -> F -> F;
  f_sub : F -> F -> F;
  f_mul : F -> F -> F;
  f_div : F -> F -> F;
  f_abs : F -> F;
  f_pow : F -> F -> F;           (* x ** y *)
  f_log10 : F -> F;
  f_leb : F -> F -> bool;        (* x <= y *)
  f_eqb : F -> F -> bool;        (* x == y *)
  f_isnan : F -> bool
}.

Section Python.

Context {F : Type} {NF : Float64 F}.

Definition f_of_Z (z : Z) : F := f_of_Q (inject_Z z).
Definition f_of_nat (n : nat) : F := f_of_Z (Z.of_nat n).
Definition f_zero : F := f_of_Z 0.
Definition f_one : F := f_of_Z 1.

(** Truth value of a float: [bool(x)] is [x != 0]. *)
Definition f_truthy (x : F) : bool := negb (f_eqb x f_zero).

(** ** Python values *)

(** [PyArray a] is a [numpy.ndarray], given by its entries along the first
    axis: scalars for a vector, rows (themselves [PyArray]) for a matrix. *)
Inductive pyval : Type :=
| PyNone
| PyBool (b : bool)
| PyInt (z : Z)
| PyFloat (x : F)
| PyStr (s : string)
| PyList (l : list pyval)
| PyArray (a : list pyval).

(** [isinstance(v, int)]: [bool] is a subclass of [int]. *)
Definition isinstance_int (v : pyval) : bool :=
  match v with PyBool _ | PyInt _ => true | _ => false end.

(** [isinstance(v, (int, float))]. *)
Definition isinstance_int_float (v : pyval) : bool :=
  match v with PyBool _ | PyInt _ | PyFloat _ => true | _ => false end.

(** [isinstance(v, (list, np.ndarray))]. *)
Definition isinstance_list_ndarray (v : pyval) : bool :=
  match v with PyList _ | PyArray _ => true | _ => false end.

(** The integer value of an [int] (or [bool]). *)
Definition int_value (v : pyval) : option Z :=
  match v with
  | PyBool b => Some (if b then 1 else 0)
  | PyInt z => Some z
  | _ => None
  end.

(** The float64 value of a scalar number. *)
Definition float_value (v : pyval) : option F :=
  match v with
  | PyBool b => Some (if b then f_one else f_zero)
  | PyInt z => Some (f_of_Z z)
  | PyFloat x => Some x
  | _ => None
  end.

(** [bool(v)] for the values whose truth the sources test. *)
Definition truthy (v : pyval) : bool :=
  match v with
  | PyNone => false
  | PyBool b => b
  | PyInt z => negb (z =? 0)
  | PyFloat x => f_truthy x
  | PyStr s => negb (String.eqb s "")
  | PyList l => negb (Nat.eqb (List.length l) 0)
  | PyArray a => negb (Nat.eqb (List.length a) 0)
  end.

(** [a and b]: [a] when [a] is false, else [b]. *)
Definition py_and (a b : pyval) : pyval := if truthy a then b else a.

(** [len(v)]. *)
Definition py_len (v : pyval) : result nat :=
  match v with
  | PyStr s => Ok (String.length s)
  | PyList l => Ok (List.length l)
  | PyArray a => Ok (List.length a)
  | _ => Raise (TypeError "object has no len()")
  end.

(** [np.array(v)]: a list becomes an array, entry by entry. *)
Fixpoint np_array (v : pyval) : pyval :=
  match v with
  | PyList l => PyArray (map np_array l)
  | _ => v
  end.

(** [np.ones(n)] and [np.zeros(n)]. *)
Definition np_ones (n : nat) : list F := repeat f_one n.
Definition np_zeros (n : nat) : list F := repeat f_zero n.

Definition float_array (v : list F) : pyval := PyArray (map PyFloat v).

(** The entries of a one-dimensional numeric list or array. *)
Fixpoint scalars (l : list pyval) : option (list F) :=
  match l with
  | [] => Some []
  | v :: l' =>
      match float_value v, scalars l' with
      | Some x, Some xs => Some (x :: xs)
      | _, _ => None
      end
  end.

Definition as_vector (v : pyval) : option (list F) :=
  match v with
  | PyList l | PyArray l => scalars l
  | _ => None
  end.

(** ** Warnings, external calls and the monad [Py] *)

(** What a run issues or calls, oldest first. *)
Inductive event : Type :=
| Warned (msg : string)                          (* warnings.warn(msg) *)
| Called_calc_f (w : F)                          (* _calc_f(self, timedata, w) *)
| Called_round_to_sigfig (vec : list F) (n : Z)  (* round_to_sigfig(vec, n) *)
| Called_derivatize (num denom : list F)         (* derivatize(num, denom) *)
| Plotted (ax : string).                         (* the L-curve drawn on ax *)

Definition Py (A : Type) : Type := (list event * result A)%type.

Definition ret {A} (a : A) : Py A := ([], Ok a).
Definition raise {A} (e : exn) : Py A := ([], Raise e).
Definition lift {A} (r : result A) : Py A := ([], r).
Definition emit (ev : event) : Py unit := ([ev], Ok tt).

Definition bind {A B} (m : Py A) (f : A -> Py B) : Py B :=
  match m with
  | (log, Ok a) => let (log', r) := f a in ((log ++ log')%list, r)
  | (log, Raise e) => (log, Raise e)
  end.

Definition events {A} (m : Py A) : list event := fst m.
Definition outcome {A} (m : Py A) : result A := snd m.

End Python.

Arguments pyval F : clear implicits.
Arguments event F : clear implicits.
Arguments Py F A : clear implicits.

Declare Scope py_scope.
Delimit Scope py_scope with py.
Notation "x <- c ;; k" := (bind c (fun x => k))
  (at level 61, c at next level, right associativity) : py_scope.
Notation "c ;;; k" := (bind c (fun _ => k))
  (at level 61, right associativity) : py_scope.

(** * [rampedpyrox/timedata/timedata_helper.py] *)

Module timedata_helper.
Section Defs.

Context {F : Type} {NF : Float64 F}.

Local Open Scope res_scope.

(** [array * np.ones(nt)] for a scalar [array]. *)
Definition scalar_times_ones (x : F) (nt : Z) : result (pyval F) :=
  if nt <? 0 then Raise (ValueError "negative dimensions are not allowed")
  else Ok (float_array (map (f_mul x) (np_ones (Z.to_nat nt)))).

(** def _assert_lent(array, nt) *)
Definition _assert_lent (array nt : pyval F) : result (pyval F) :=
  (* check nt is int *)
  match int_value nt with
  | None => Raise (TypeError "nt must be int")
  | Some n =>
      (* ensure array is the right length *)
      match float_value array with
      | Some x => scalar_times_ones x n
      | None =>
          match array with
          | PyList l | PyArray l =>
              if negb (Z.of_nat (List.length l) =? n)
              then Raise (ValueError "array must have length nt")
              else Ok (np_array array)
          | _ => Raise (TypeError "array bust be scalar, array-like, or None")
          end
      end
  end.

(** [np.gradient] of a vector with unit spacing: one-sided differences at
    the two ends, central differences inside. *)
Definition gradient (v : list F) : list F :=
  let n := List.length v in
  let at_ i := nth i v f_zero in
  map (fun i =>
         if Nat.eqb i 0 then f_div (f_sub (at_ 1%nat) (at_ 0%nat)) f_one
         else if Nat.eqb i (n - 1)
              then f_div (f_sub (at_ (n - 1)%nat) (at_ (n - 2)%nat)) f_one
              else f_div (f_sub (at_ (i + 1)%nat) (at_ (i - 1)%nat))
                         (f_mul (f_of_Z 2) f_one))
      (seq 0 n).

Definition gradient_too_small : exn :=
  ValueError "Shape of array too small to calculate a numerical gradient, at least (edge_order + 1) elements are required.".

(** [np.gradient(x)]: a scalar has no axis and gives the empty list; a
    vector needs two entries.  Input that is not a number or a vector of
    numbers is outside what is modelled and is reported as a [TypeError]. *)
Definition np_gradient (x : pyval F) : result (list F) :=
  match x with
  | PyBool _ | PyInt _ | PyFloat _ => Ok []
  | PyList l | PyArray l =>
      match scalars l with
      | Some v =>
          if (List.length v <? 2)%nat then Raise gradient_too_small
          else Ok (gradient v)
      | None => Raise (TypeError "gradient: unsupported operand")
      end
  | _ => Raise (TypeError "gradient: unsupported operand")
  end.

Definition is_ValueError (e : exn) : bool := String.eqb (exn_class e) "ValueError".

(** The builtin [any] over an array: some entry is true. *)
Definition py_any (v : list F) : bool := existsb f_truthy v.

(** [b <= 0] for a [bool] [b], compared as the int it is. *)
Definition bool_le_0 (b : bool) : bool := (if b then 1 else 0) <=? 0.

(** def _derivatize(num, denom) *)
Definition _derivatize (num denom : pyval F) : result (pyval F) :=
  (* check inputted data types and raise appropriate errors *)
  if negb (isinstance_int_float num || isinstance_list_ndarray num)
  then Raise (TypeError "num bust be scalar or array-like")
  else if negb (isinstance_list_ndarray denom)
  then Raise (TypeError "denom bust be array-like")
  else
    (* take gradients, and clean-up if necessary *)
    dn <~ match np_gradient num with
          | Raise e =>
              if is_ValueError e
              then (n <~ py_len denom ;; Ok (np_zeros n))
              else Raise e
          | Ok dn => Ok dn
          end ;;
    dd <~ np_gradient denom ;;
    (* check lengths and continuously increasing denom *)
    if negb (Nat.eqb (List.length dn) (List.length dd))
    then Raise (ValueError "num and denom arrays must have same length")
    else if bool_le_0 (py_any dd)
    then (n <~ py_len denom ;; Ok (float_array (np_zeros n)))
    else Ok (float_array (map (fun p => f_div (fst p) (snd p)) (combine dn dd))).

(** A [pd.DataFrame] as far as the helper looks at it: its named columns
    and its index. *)
Inductive index : Type :=
| DatetimeIndex (stamps : list Z)      (* seconds since the epoch *)
| OtherIndex.

Record DataFrame : Type := {
  columns : list (string * list F);
  df_index : index
}.

(** The [file] argument: a path, a frame, or anything else. *)
Inductive file_arg : Type :=
| FileStr (path : string)
| FileFrame (df : DataFrame)
| FileOther (v : pyval F).

(** ['temp' not in file.columns]. *)
Definition not_in_columns (name : string) (df : DataFrame) : bool :=
  negb (existsb (String.eqb name) (map fst (columns df))).

(** [file.name]: the column of that name. *)
Definition column (df : DataFrame) (name : string) : result (list F) :=
  match find (fun c => String.eqb name (fst c)) (columns df) with
  | Some c => Ok (snd c)
  | None => Raise (AttributeError name)
  end.

Definition dq : string := String (ascii_of_nat 34) EmptyString.

Definition missing_columns_msg : string :=
  "file must have " ++ dq ++ "CO2_scaled" ++ dq ++ " and " ++ dq ++ "temp" ++ dq
  ++ " columns".

(** What the helper reads from outside: [pd.read_csv], and the numerical
    tail of the function (cumulative sums, interpolation on the down-sampled
    time grid), which returns [(g, g_std, t, T)]. *)
Record extract_env : Type := {
  read_csv : string -> result DataFrame;
  downsample : list Z -> list F -> list F -> pyval F -> pyval F ->
               result (list F * list F * list F * list F)
}.

(** The checks at the head of [_rpo_extract_tg]. *)
Definition _rpo_extract_tg_checks (env : extract_env) (file : file_arg)
  : result DataFrame :=
  (* check data format and raise appropriate errors *)
  file <~ match file with
          | FileStr path => read_csv env path
          | FileFrame df => Ok df
          | FileOther _ =>
              Raise (TypeError "file must be pd.DataFrame instance or path string")
          end ;;
  if truthy (py_and (PyStr "CO2_scaled") (PyBool (not_in_columns "temp" file)))
  then Raise (ValueError missing_columns_msg)
  else match df_index file with
       | OtherIndex => Raise (TypeError "file index must be pd.DatetimeIndex instance")
       | DatetimeIndex _ => Ok file
       end.

(** def _rpo_extract_tg(file, nt, err) *)
Definition _rpo_extract_tg (env : extract_env) (file : file_arg) (nt err : pyval F)
  : result (list F * list F * list F * list F) :=
  file <~ _rpo_extract_tg_checks env file ;;
  (* extract necessary data *)
  secs <~ match df_index file with
          | DatetimeIndex (s0 :: stamps) =>
              (* .seconds is the seconds part of each difference, below one day *)
              Ok (map (fun s => (s - s0) mod 86400) (s0 :: stamps))
          | _ => Raise (IndexError "index 0 is out of bounds for axis 0 with size 0")
          end ;;
  CO2 <~ column file "CO2_scaled" ;;
  Temp <~ column file "temp" ;;
  downsample env secs CO2 Temp nt err.

End Defs.
End timedata_helper.

(** * [rampedpyrox/model/model.py] *)

Module model.
Section Defs.

Context {F : Type} {NF : Float64 F}.

(** An instance of some class of the package (a [TimeData], a [RateData]):
    its class with the classes it inherits from, and its attributes. *)
Record pyobject : Type := {
  obj_classes : list string;
  obj_attrs : list (string * pyval F)
}.

Definition isinstance (o : pyobject) (cls : string) : bool :=
  existsb (String.eqb cls) (obj_classes o).

Definition getattr (o : pyobject) (name : string) : result (pyval F) :=
  match find (fun a => String.eqb name (fst a)) (obj_attrs o) with
  | Some a => Ok (snd a)
  | None => Raise (AttributeError name)
  end.

(** The attributes [Model.__init__] stores. *)
Record Model : Type := {
  self_A : pyval F;
  self_model_type : string;
  self_nt : nat;
  self_t : pyval F;
  self_T : pyval F
}.

(** The attributes of a [Daem]: those of [Model] and its own. *)
Record Daem : Type := {
  daem_super : Model;
  self_log10k0 : pyval F;
  self_Ea : pyval F;
  self_nEa : nat
}.

(** The functions the module imports from [rampedpyrox.core.core_functions]
    and [rampedpyrox.model.model_helper]. *)
Class Imports : Type := {
  assert_len : pyval F -> pyval F -> result (pyval F);
  derivatize : list F -> list F -> result (list F);
  round_to_sigfig : list F -> Z -> result (list F);
  _calc_f : Model -> pyobject -> F -> result (pyval F * F * F);
  _rpo_calc_A : pyval F -> pyval F -> pyval F -> pyval F -> result (pyval F)
}.

Context {IM : Imports}.

(** ** The names the module binds *)

(** Lines 5 to 18: [import matplotlib.pyplot as plt], [import numpy as np]
    and the two [from ... import (...)]. *)
Definition module_imports : list string :=
  ["plt"; "np"; "assert_len"; "derivatize"; "round_to_sigfig"; "_calc_f";
   "_rpo_calc_A"].

Definition module_classes : list string := ["Model"; "LaplaceTransform"; "Daem"].

(** The builtins the module uses. *)
Definition builtins : list string :=
  ["object"; "len"; "isinstance"; "int"; "float"; "super"; "enumerate"; "repr";
   "classmethod"; "TypeError"; "NotImplementedError"].

(** Looking a global name up: module globals, then builtins, else
    [NameError]. *)
Definition global_name (name : string) : Py F unit :=
  if existsb (String.eqb name) (module_imports ++ module_classes ++ builtins)%list
  then ret tt
  else raise (NameError name).

Local Open Scope py_scope.

(** [warnings.warn(msg)]: the name [warnings] is looked up, then the
    warning is issued and execution goes on. *)
Definition warnings_warn (msg : string) : Py F unit :=
  global_name "warnings" ;;; emit (Warned msg).

(** ** class Model *)

(** def __init__(self, A, model_type, t, T) *)
Definition Model__init__ (A : pyval F) (model_type : string) (t T : pyval F)
  : result Model :=
  (* ensure data is in the right form *)
  (nt <~ py_len t ;;
   let nt' := PyInt (Z.of_nat nt) in
   t <~ assert_len t nt' ;;
   T <~ assert_len T nt' ;;
   A <~ assert_len A nt' ;;
   (* store attributes *)
   Ok {| self_A := A; self_model_type := model_type; self_nt := nt;
         self_t := t; self_T := T |})%res.

(** [Model.from_timedata], [Model.from_ratedata] (and those of
    [LaplaceTransform]) *)
Definition Model_from_timedata : result Model := Raise NotImplementedError.
Definition Model_from_ratedata : result Model := Raise NotImplementedError.

(** *** numpy, as [calc_L_curve] uses it *)

(** [np.linspace(start, stop, num)], end point included. *)
Definition np_linspace (start stop : F) (num : Z) : result (list F) :=
  if num <? 0
  then Raise (ValueError "Number of samples must be non-negative.")
  else
    let n := Z.to_nat num in
    let div := f_of_Z (num - 1) in
    let delta := f_sub stop start in
    let y := map f_of_nat (seq 0 n) in
    let y :=
      if 0 <? num - 1 then
        let step := f_div delta div in
        if f_eqb step f_zero
        then map (fun i => f_mul (f_div i div) delta) y
        else map (fun i => f_mul i step) y
      else map (fun i => f_mul i delta) y in
    let y := map (fun x => f_add x start) y in
    Ok (if 1 <? num then (removelast y ++ [stop])%list else y).

(** An operation on two arrays, entry by entry; an array of one entry is
    stretched to the length of the other. *)
Definition broadcast (op : F -> F -> F) (a b : list F) : result (list F) :=
  if Nat.eqb (List.length a) (List.length b)
  then Ok (map (fun p => op (fst p) (snd p)) (combine a b))
  else match a, b with
       | [x], _ => Ok (map (op x) b)
       | _, [y] => Ok (map (fun x => op x y) a)
       | _, _ => Raise (ValueError "operands could not be broadcast together")
       end.

(** [np.argmax] of a vector, from index [i] on, [best] at [ibest] being the
    largest so far: a later entry replaces it only when it is not [<=] it,
    and the scan stops at a NaN. *)
Fixpoint argmax_from (v : list F) (i : nat) (best : F) (ibest : nat) : nat :=
  match v with
  | [] => ibest
  | x :: v' =>
      if f_isnan best then ibest
      else if negb (f_leb x best)
           then argmax_from v' (S i) x i
           else argmax_from v' (S i) best ibest
  end.

Definition np_argmax (v : list F) : result nat :=
  match v with
  | [] => Raise (ValueError "attempt to get argmax of an empty sequence")
  | x :: v' => Ok (argmax_from v' 1 x 0)
  end.

(** [v[i]] *)
Definition getitem (v : list F) (i : nat) : result F :=
  match nth_error v i with
  | Some x => Ok x
  | None => Raise (IndexError "index is out of bounds")
  end.

(** *** The imported helpers, with their calls recorded *)

Definition call_calc_f (self : Model) (timedata : pyobject) (w : F)
  : Py F (pyval F * F * F) :=
  emit (Called_calc_f w) ;;; lift (_calc_f self timedata w).

Definition call_round_to_sigfig (vec : list F) (n : Z) : Py F (list F) :=
  emit (Called_round_to_sigfig vec n) ;;; lift (round_to_sigfig vec n).

Definition call_derivatize (num denom : list F) : Py F (list F) :=
  emit (Called_derivatize num denom) ;;; lift (derivatize num denom).

(** *** calc_L_curve *)

(** for i, w in enumerate(om_vec): ... *)
Fixpoint sweep (self : Model) (timedata : pyobject) (om_vec res_vec rgh_vec : list F)
  : Py F (list F * list F) :=
  match om_vec with
  | [] => ret (res_vec, rgh_vec)
  | w :: om_vec' =>
      r <- call_calc_f self timedata w ;;
      let '(_, res, rgh) := r in
      sweep self timedata om_vec' (res_vec ++ [res])%list (rgh_vec ++ [rgh])%list
  end.

(** The curvature line: [np.abs(dy2d2x)/(1+dydx**2)**1.5]. *)
Definition curvature (dydx dy2d2x : list F) : result (list F) :=
  let denom :=
    map (fun d => f_pow (f_add f_one (f_pow d (f_of_Z 2))) (f_of_Q (3 # 2))) dydx in
  broadcast f_div (map f_abs dy2d2x) denom.

(** What the method returns: [om_best], or [(om_best, ax)] when plotting. *)
Inductive L_curve_return : Type :=
| Om_best (om_best : F)
| Om_best_ax (om_best : F) (ax : string).

Definition om_best_of (r : L_curve_return) : F :=
  match r with Om_best om | Om_best_ax om _ => om end.

(** def calc_L_curve(self, timedata, ax = None, nOm = 150, om_max = 1e2,
        om_min = 1e-3, plot = False) *)
Definition calc_L_curve (self : Model) (timedata : pyobject) (ax : option string)
    (nOm om_max om_min : pyval F) (plot : bool) : Py F L_curve_return :=
  (* check that nOm, om_max, and om_min are in the right form *)
  match float_value om_max with
  | None => raise (TypeError "om_max must be float or int")
  | Some om_max =>
  match float_value om_min with
  | None => raise (TypeError "om_min must be float or int")
  | Some om_min =>
  match int_value nOm with
  | None => raise (TypeError "nOm must be int")
  | Some nOm =>
    (* define arrays *)
    log_om_vec <- lift (np_linspace (f_log10 om_min) (f_log10 om_max) nOm) ;;
    let om_vec := map (f_pow (f_of_Z 10)) log_om_vec in
    (* for each omega value in the vector, calculate the errors *)
    vecs <- sweep self timedata om_vec [] [] ;;
    let '(res_vec, rgh_vec) := vecs in
    (* store logs as arrays, and remove noise after 6 sig figs *)
    let res_vec := map f_log10 res_vec in
    let rgh_vec := map f_log10 rgh_vec in
    res_vec <- call_round_to_sigfig res_vec 6 ;;
    rgh_vec <- call_round_to_sigfig rgh_vec 6 ;;
    (* calculate derivatives and curvature *)
    dydx <- call_derivatize rgh_vec res_vec ;;
    dy2d2x <- call_derivatize dydx res_vec ;;
    k <- lift (curvature dydx dy2d2x) ;;
    (* find first occurrance of argmax k *)
    i <- lift (np_argmax k) ;;
    om_best <- lift (getitem om_vec i) ;;
    (* plot if necessary *)
    if plot then
      (* create axis if necessary *)
      let ax := match ax with None => "plt.subplots(1,1)" | Some ax => ax end in
      (* plot results *)
      emit (Plotted ax) ;;;
      _ <- lift (getitem res_vec i) ;;
      _ <- lift (getitem rgh_vec i) ;;
      ret (Om_best_ax om_best ax)
    else ret (Om_best om_best)
  end end end.

(** The keyword defaults of [calc_L_curve]. *)
Definition default_nOm : pyval F := PyInt 150.
Definition default_om_max : pyval F := PyFloat (f_of_Q 100).
Definition default_om_min : pyval F := PyFloat (f_of_Q (1 # 1000)).

Definition calc_L_curve_default (self : Model) (timedata : pyobject)
  : Py F L_curve_return :=
  calc_L_curve self timedata None default_nOm default_om_max default_om_min false.

(** ** class LaplaceTransform(Model) *)

(** [__init__] only calls the one of [Model]. *)
Definition LaplaceTransform__init__ (A : pyval F) (model_type : string) (t T : pyval F)
  : result Model :=
  Model__init__ A model_type t T.

(** ** class Daem(LaplaceTransform) *)

(** The message texts, as the adjacent string literals concatenate; the
    operand of [%] is not substituted. *)
Definition isothermal_msg : string :=
  "Attempting to use isothermal data to create DAEM model! T isa scalar value of: %.1f. Consider using an isothermal modeltype instead.".

Definition timedata_class_msg : string :=
  "Attempting to generate Daem model using a timedata instance ofclass: %s. Consider using RpoThermogram timedata instanceinstead.".

Definition ratedata_class_msg : string :=
  "Attempting to generate Daem model using a ratedata instanceof type: %s. Only EnergyComplex instances can be used forDaem models.".

(** def __init__(self, Ea, log10k0, t, T) *)
Definition Daem__init__ (Ea log10k0 t T : pyval F) : Py F Daem :=
  (* warn if T is scalar *)
  (if isinstance_int_float T then warnings_warn isothermal_msg else ret tt) ;;;
  (* calculate A matrix *)
  A <- lift (_rpo_calc_A Ea log10k0 t T) ;;
  let model_type := "Daem" in
  super <- lift (LaplaceTransform__init__ A model_type t T) ;;
  (* store Daem-specific attributes *)
  nEa <- lift (py_len Ea) ;;
  Ea' <- lift (assert_len Ea (PyInt (Z.of_nat nEa))) ;;
  ret {| daem_super := super; self_log10k0 := log10k0; self_Ea := Ea';
         self_nEa := nEa |}.

(** def from_timedata(cls, timedata, Ea_max = 350, Ea_min = 50, log10k0 = 10,
        nEa = 250) *)
Definition Daem_from_timedata (timedata : pyobject) (Ea_max Ea_min : F)
    (log10k0 : pyval F) (nEa : Z) : Py F Daem :=
  (* check that timedata is the right type *)
  (if negb (isinstance timedata "RpoThermogram")
   then warnings_warn timedata_class_msg else ret tt) ;;;
  (* generate Ea, t, and T array *)
  Ea <- lift (np_linspace Ea_min Ea_max nEa) ;;
  t <- lift (getattr timedata "t") ;;
  T <- lift (getattr timedata "T") ;;
  Daem__init__ (float_array Ea) log10k0 t T.

(** def from_ratedata(cls, ratedata, beta = 0.08, log10k0 = 10, nt = 250,
        t0 = 0, T0 = 373, tf = 1e4) *)
Definition Daem_from_ratedata (ratedata : pyobject) (beta : F) (log10k0 : pyval F)
    (nt : Z) (t0 T0 tf : F) : Py F Daem :=
  (* check that ratedata is the right type *)
  if negb (isinstance ratedata "EnergyComplex")
  then raise (TypeError ratedata_class_msg)
  else
    (* generate Ea, t, and T array *)
    Ea <- lift (getattr ratedata "Ea") ;;
    t <- lift (np_linspace t0 tf nt) ;;
    let T := map (fun ti => f_add T0 (f_mul beta ti)) t in
    Daem__init__ Ea log10k0 (float_array t) (float_array T).

End Defs.

Arguments Imports F : clear implicits.
Arguments Model F : clear implicits.
Arguments Daem F : clear implicits.
Arguments pyobject F : clear implicits.
Arguments L_curve_return F : clear implicits.

End model.

(** * A concrete interpretation, to run the definitions *)

Module QNum.

(** The integer part of [log10 z], for [z >= 1]. *)
Fixpoint log10_digits (fuel : nat) (z : Z) : Z :=
  match fuel with
  | O => 0
  | S fuel' => if z <? 10 then 0 else 1 + log10_digits fuel' (z / 10)
  end.

Definition Zlog10 (z : Z) : Z := log10_digits (Z.to_nat (Z.log2 z)) z.

(** [log10] of a rational, cut to its integer part: exact on the powers of
    ten, and [0] where the logarithm is undefined. *)
Definition Qlog10 (x : Q) : Q :=
  if Qle_bool x 0 then 0%Q
  else if Qle_bool 1 x then inject_Z (Zlog10 (Qfloor x))
       else inject_Z (- Zlog10 (Qfloor (/ x))).

(** [x ** y] with the exponent cut to its integer part: exact for an
    integer [y]. *)
Definition Qpow (x y : Q) : Q := Qpower x (Qfloor y).

(** Exact rational arithmetic: no rounding, no NaN, no infinity.  A
    division by zero gives [0] here, where float64 gives an infinity or a
    NaN: an input on which the code divides by zero is to be run on [NaNQ],
    below. *)
#[export] Instance Q_Float64 : Float64 Q := {
  f_of_Q := fun q => q;
  f_add := Qplus;
  f_sub := Qminus;
  f_mul := Qmult;
  f_div := Qdiv;
  f_abs := Qabs;
  f_pow := Qpow;
  f_log10 := Qlog10;
  f_leb := Qle_bool;
  f_eqb := Qeq_bool;
  f_isnan := fun _ => false
}.

(** [derivatize] of [core_functions], run as its sibling [_derivatize]. *)
Definition derivatize_as_sibling (num denom : list Q) : result (list Q) :=
  match timedata_helper._derivatize (float_array num) (float_array denom) with
  | Ok v =>
      match as_vector v with
      | Some d => Ok d
      | None => Raise (TypeError "not a vector")
      end
  | Raise e => Raise e
  end.

(** Imports to run [model] with: the length helper and the derivative are
    the siblings of [timedata_helper]; rounding is exact (the identity);
    the inverter and the transform matrix are given by the caller. *)
Definition imports_with
    (inverter : Q -> result (pyval Q * Q * Q))
    (matrix : pyval Q -> pyval Q -> result (pyval Q)) : model.Imports Q := {|
  model.assert_len := timedata_helper._assert_lent;
  model.derivatize := derivatize_as_sibling;
  model.round_to_sigfig := fun v _ => Ok v;
  model._calc_f := fun _ _ w => inverter w;
  model._rpo_calc_A := fun Ea _ t _ => matrix Ea t
|}.

(** A transform matrix of ones, one row per time point. *)
Definition ones_matrix (Ea t : pyval Q) : result (pyval Q) :=
  match py_len t, py_len Ea with
  | Ok nt, Ok nEa => Ok (PyArray (repeat (float_array (np_ones nEa)) nt))
  | Raise e, _ | _, Raise e => Raise e
  end.

(** An inverter whose residual grows and whose roughness falls with
    [omega], with a corner at [omega = 1]. *)
Definition corner_inverter (w : Q) : result (pyval Q * Q * Q) :=
  if Qle_bool w 1 then Ok (PyNone, 10, (1000 / (w * w)))%Q
  else Ok (PyNone, 10 * (w * w * w), 1000)%Q.

(** An inverter that fails at [omega = 1]. *)
Definition singular_inverter (w : Q) : result (pyval Q * Q * Q) :=
  if Qeq_bool w 1 then Raise (Exn "LinAlgError" "Singular matrix")
  else corner_inverter w.

Definition a_model : model.Model Q := {|
  model.self_A := PyArray [];
  model.self_model_type := "Daem";
  model.self_nt := 0;
  model.self_t := PyArray [];
  model.self_T := PyArray []
|}.

Definition a_thermogram : model.pyobject Q := {|
  model.obj_classes := ["RpoThermogram"; "TimeData"; "object"];
  model.obj_attrs := [("t", PyList [PyInt 0; PyInt 1; PyInt 2]);
                      ("T", PyList [PyInt 373; PyInt 374; PyInt 375])]
|}.

Definition plain_imports : model.Imports Q := imports_with corner_inverter ones_matrix.

(** A [RateData] that is not an [EnergyComplex]. *)
Definition a_ratedata : model.pyobject Q := {|
  model.obj_classes := ["RateData"; "object"];
  model.obj_attrs := [("Ea", PyList [PyInt 50; PyInt 60])]
|}.

Definition singular_imports : model.Imports Q :=
  imports_with singular_inverter ones_matrix.

(** A frame with a ["temp"] column and no ["CO2_scaled"] column. *)
Definition a_frame_without_CO2 : timedata_helper.DataFrame (F:=Q) := {|
  timedata_helper.columns := [("temp", [20; 21; 22]%Q)];
  timedata_helper.df_index := timedata_helper.DatetimeIndex [0; 1; 2]
|}.

(** No file can be read; the numerical tail hands its columns back. *)
Definition an_extract_env : timedata_helper.extract_env (F:=Q) := {|
  timedata_helper.read_csv := fun _ => Raise (Exn "FileNotFoundError" "No such file");
  timedata_helper.downsample := fun secs CO2 Temp _ _ =>
    Ok (CO2, CO2, map inject_Z secs, Temp)
|}.

End QNum.

(** * The vocabulary of the statements *)

Section Vocabulary.

Context {F : Type} {NF : Float64 F}.

(** The omegas handed to [_calc_f], in call order. *)
Fixpoint calc_f_calls (log : list (event F)) : list F :=
  match log with
  | [] => []
  | Called_calc_f w :: log' => w :: calc_f_calls log'
  | _ :: log' => calc_f_calls log'
  end.

(** The warnings issued. *)
Fixpoint warnings_of (log : list (event F)) : list string :=
  match log with
  | [] => []
  | Warned msg :: log' => msg :: warnings_of log'
  | _ :: log' => warnings_of log'
  end.

(** What the comparison [<=] of the floats has to satisfy for "the
    maximum" of a vector to make sense: away from NaN it is total, and it
    is transitive. *)
Record leb_order : Prop := {
  leb_total : forall x y : F,
      f_isnan x = false -> f_isnan y = false ->
      f_leb x y = true \/ f_leb y x = true;
  leb_trans : forall x y z : F,
      f_leb x y = true -> f_leb y z = true -> f_leb x z = true
}.

(** [i] is the first index at which [k] attains its maximum: every entry
    is [<=] the one at [i], and no earlier entry reaches it. *)
Definition first_max_index (k : list F) (i : nat) : Prop :=
  exists ki, nth_error k i = Some ki /\
    (forall j kj, nth_error k j = Some kj -> f_leb kj ki = true) /\
    (forall j kj, (j < i)%nat -> nth_error k j = Some kj -> f_leb ki kj = false).

(** The curvature at one sweep point:
    [|d2y/dx2| / (1 + (dy/dx)^2)^1.5]. *)
Definition kappa (dydx dy2d2x : F) : F :=
  f_div (f_abs dy2d2x)
        (f_pow (f_add f_one (f_pow dydx (f_of_Z 2))) (f_of_Q (3 # 2))).

(** Entry [i] of [np.linspace(start, stop, num)] before the last: [i]
    steps of [(stop - start)/(num - 1)] from [start]. *)
Definition linspace_entry (start stop : F) (num : Z) (i : nat) : F :=
  let div := f_of_Z (num - 1) in
  let delta := f_sub stop start in
  let step := f_div delta div in
  f_add (if f_eqb step f_zero
         then f_mul (f_div (f_of_nat i) div) delta
         else f_mul (f_of_nat i) step)
        start.


(** A value is array-like: a list or an [ndarray]. *)
Definition array_like (v : pyval F) : Prop := isinstance_list_ndarray v = true.

(** A scalar: an [int] or a [float]. *)
Definition scalar (v : pyval F) : Prop := isinstance_int_float v = true.

(** No entry of the vector is a NaN. *)
Definition nan_free (v : list F) : Prop := forall x, In x v -> f_isnan x = false.

End Vocabulary.

Section SweepVocabulary.

Context {F : Type} {NF : Float64 F} {IM : model.Imports F}.

(** The residual and roughness norms the inverter reports for [w]. *)
Definition residual_of (self : model.Model F) (timedata : model.pyobject F) (w : F) : F :=
  match model._calc_f self timedata w with
  | Ok (_, res, _) => res
  | Raise _ => f_zero
  end.

Definition roughness_of (self : model.Model F) (timedata : model.pyobject F) (w : F) : F :=
  match model._calc_f self timedata w with
  | Ok (_, _, rgh) => rgh
  | Raise _ => f_zero
  end.

(** The inverter returns for every omega of the sweep. *)
Definition inverts (self : model.Model F) (timedata : model.pyobject F)
    (om_vec : list F) : Prop :=
  forall w, In w om_vec -> is_ok (model._calc_f self timedata w) = true.

(** What [calc_L_curve] does with the rounded logarithms [res_vec] and
    [rgh_vec]: from "calculate derivatives and curvature" to the end. *)
Definition corner_of (om_vec res_vec rgh_vec : list F) (ax : option string)
    (plot : bool) : Py F (model.L_curve_return F) :=
  (dydx <- model.call_derivatize rgh_vec res_vec ;;
   dy2d2x <- model.call_derivatize dydx res_vec ;;
   k <- lift (model.curvature dydx dy2d2x) ;;
   i <- lift (model.np_argmax k) ;;
   om_best <- lift (model.getitem om_vec i) ;;
   if plot then
     let ax := match ax with None => "plt.subplots(1,1)" | Some ax => ax end in
     emit (Plotted ax) ;;;
     _ <- lift (model.getitem res_vec i) ;;
     _ <- lift (model.getitem rgh_vec i) ;;
     ret (model.Om_best_ax om_best ax)
   else ret (model.Om_best om_best))%py.

(** What it does once the sweep has filled [res_vec] and [rgh_vec]: from
    "store logs as arrays" to the end. *)
Definition after_sweep (om_vec res_vec rgh_vec : list F) (ax : option string)
    (plot : bool) : Py F (model.L_curve_return F) :=
  (let res_vec := map f_log10 res_vec in
   let rgh_vec := map f_log10 rgh_vec in
   res_vec <- model.call_round_to_sigfig res_vec 6 ;;
   rgh_vec <- model.call_round_to_sigfig rgh_vec 6 ;;
   corner_of om_vec res_vec rgh_vec ax plot)%py.

(** An event that may follow the rounding: a derivative taken with respect
    to [x], or the plot. *)
Definition follows_rounding (x : list F) (ev : event F) : Prop :=
  match ev with
  | Called_derivatize _ denom => denom = x
  | Plotted _ => True
  | Called_calc_f _ | Called_round_to_sigfig _ _ | Warned _ => False
  end.

(** The curvatures of the sweep, from the two derivative vectors. *)
Definition kappas (dydx dy2d2x : list F) : list F :=
  map (fun p => kappa (fst p) (snd p)) (combine dydx dy2d2x).

End SweepVocabulary.

(** * Calls with keyword arguments *)

Module calls.
Section Defs.

Context {F : Type} {NF : Float64 F} {IM : model.Imports F}.

(** The arguments of [Daem.from_timedata] after [timedata], with the
    defaults of the [def] line: [Ea_max = 350, Ea_min = 50, log10k0 = 10,
    nEa = 250]. *)
Record from_timedata_args : Type := {
  arg_Ea_max : pyval F;
  arg_Ea_min : pyval F;
  arg_log10k0 : pyval F;
  arg_nEa : pyval F
}.

Definition from_timedata_defaults : from_timedata_args := {|
  arg_Ea_max := PyInt 350;
  arg_Ea_min := PyInt 50;
  arg_log10k0 := PyInt 10;
  arg_nEa := PyInt 250
|}.

(** The names a keyword can bind: the parameters of the [def] line. *)
Definition from_timedata_params : list string :=
  ["cls"; "timedata"; "Ea_max"; "Ea_min"; "log10k0"; "nEa"].

(** Binding the keywords of a call [Daem.from_timedata(timedata, **kwargs)],
    in order: a name that is no parameter is refused, and so is one that
    names [cls] or [timedata], bound already. *)
Fixpoint bind_keywords (kwargs : list (string * pyval F)) (args : from_timedata_args)
  : result from_timedata_args :=
  match kwargs with
  | [] => Ok args
  | (k, v) :: kwargs' =>
      if String.eqb k "Ea_max" then
        bind_keywords kwargs'
          {| arg_Ea_max := v; arg_Ea_min := arg_Ea_min args;
             arg_log10k0 := arg_log10k0 args; arg_nEa := arg_nEa args |}
      else if String.eqb k "Ea_min" then
        bind_keywords kwargs'
          {| arg_Ea_max := arg_Ea_max args; arg_Ea_min := v;
             arg_log10k0 := arg_log10k0 args; arg_nEa := arg_nEa args |}
      else if String.eqb k "log10k0" then
        bind_keywords kwargs'
          {| arg_Ea_max := arg_Ea_max args; arg_Ea_min := arg_Ea_min args;
             arg_log10k0 := v; arg_nEa := arg_nEa args |}
      else if String.eqb k "nEa" then
        bind_keywords kwargs'
          {| arg_Ea_max := arg_Ea_max args; arg_Ea_min := arg_Ea_min args;
             arg_log10k0 := arg_log10k0 args; arg_nEa := v |}
      else if String.eqb k "cls" || String.eqb k "timedata" then
        Raise (TypeError
                 ("from_timedata() got multiple values for argument '" ++ k ++ "'"))
      else
        Raise (TypeError
                 ("from_timedata() got an unexpected keyword argument '" ++ k ++ "'"))
  end.

(** The call [Daem.from_timedata(timedata, **kwargs)]: the keywords are
    bound, then the body runs.  [np.linspace] wants numbers for its bounds
    and an int for its count; given anything else it raises a [TypeError],
    which happens after the class check of the body. *)
Definition call_from_timedata (timedata : model.pyobject F)
    (kwargs : list (string * pyval F)) : Py F (model.Daem F) :=
  match bind_keywords kwargs from_timedata_defaults with
  | Raise e => raise e
  | Ok args =>
      match float_value (arg_Ea_max args), float_value (arg_Ea_min args),
            int_value (arg_nEa args) with
      | Some Ea_max, Some Ea_min, Some nEa =>
          model.Daem_from_timedata timedata Ea_max Ea_min (arg_log10k0 args) nEa
      | _, _, _ =>
          ((if negb (model.isinstance timedata "RpoThermogram")
            then model.warnings_warn model.timedata_class_msg else ret tt) ;;;
           raise (TypeError "linspace: unsupported operand"))%py
      end
  end.

End Defs.
End calls.

(** * The script [tests/test_script.py] *)

Module test_script.
Section Defs.

Context {F : Type} {NF : Float64 F}.

(** The keywords of its call [rp.Daem.from_timedata(tg, log10k0=10,
    E_max=400, E_min=50, nE=400)]. *)
Definition from_timedata_kwargs : list (string * pyval F) :=
  [("log10k0", PyInt 10); ("E_max", PyInt 400); ("E_min", PyInt 50);
   ("nE", PyInt 400)].

End Defs.
End test_script.

Section MoreVocabulary.

Context {F : Type} {NF : Float64 F}.

(** [j] is the index of the first NaN of [k]. *)
Definition first_nan_index (k : list F) (j : nat) : Prop :=
  (exists x, nth_error k j = Some x /\ f_isnan x = true) /\
  (forall i x, (i < j)%nat -> nth_error k i = Some x -> f_isnan x = false).

(** The quotient of two vectors, entry by entry. *)
Definition quotient (dn dd : list F) : list F :=
  map (fun p => f_div (fst p) (snd p)) (combine dn dd).

End MoreVocabulary.

(** * More inputs to run the definitions on *)

Module QRun.

Import QNum.

(** A thermogram at one temperature. *)
Definition an_isothermal_thermogram : model.pyobject Q := {|
  model.obj_classes := ["RpoThermogram"; "TimeData"; "object"];
  model.obj_attrs := [("t", PyList [PyInt 0; PyInt 1; PyInt 2]); ("T", PyInt 373)]
|}.

Definition an_energy_complex : model.pyobject Q := {|
  model.obj_classes := ["EnergyComplex"; "RateData"; "object"];
  model.obj_attrs := [("Ea", PyList [PyInt 50; PyInt 60])]
|}.

(** A frame with both columns, its second stamp more than a day after the
    first. *)
Definition a_frame : timedata_helper.DataFrame (F:=Q) := {|
  timedata_helper.columns :=
    [("CO2_scaled", [1; 2; 3]%Q); ("temp", [20; 21; 22]%Q)];
  timedata_helper.df_index := timedata_helper.DatetimeIndex [100; 86500; 86501]
|}.

(** The frame can be read from one path. *)
Definition a_file_env : timedata_helper.extract_env (F:=Q) := {|
  timedata_helper.read_csv := fun path =>
    if String.eqb path "all_data.csv" then Ok a_frame
    else Raise (Exn "FileNotFoundError" "No such file");
  timedata_helper.downsample := fun secs CO2 Temp _ _ =>
    Ok (CO2, CO2, map inject_Z secs, Temp)
|}.

(** Imports whose rounding fails. *)
Definition rounding_fails_imports : model.Imports Q := {|
  model.assert_len := timedata_helper._assert_lent;
  model.derivatize := derivatize_as_sibling;
  model.round_to_sigfig := fun _ _ => Raise (ValueError "cannot round");
  model._calc_f := fun _ _ w => corner_inverter w;
  model._rpo_calc_A := fun Ea _ t _ => ones_matrix Ea t
|}.

End QRun.

(** Rationals with a NaN: [None] is the NaN, which every operation hands
    on and which compares with nothing; a division by zero and the
    logarithm of a number that is not positive give it.  There is no
    infinity: [x/0] is the NaN also where float64 gives an infinity. *)
Module NaNQ.

Definition lift2 (op : Q -> Q -> Q) (x y : option Q) : option Q :=
  match x, y with
  | Some a, Some b => Some (op a b)
  | _, _ => None
  end.

Definition div (x y : option Q) : option Q :=
  match x, y with
  | Some a, Some b => if Qeq_bool b 0 then None else Some (a / b)%Q
  | _, _ => None
  end.

Definition log10 (x : option Q) : option Q :=
  match x with
  | Some a => if Qle_bool a 0 then None else Some (QNum.Qlog10 a)
  | None => None
  end.

Definition test2 (op : Q -> Q -> bool) (x y : option Q) : bool :=
  match x, y with
  | Some a, Some b => op a b
  | _, _ => false
  end.

#[export] Instance NaNQ_Float64 : Float64 (option Q) := {
  f_of_Q := fun q => Some q;
  f_add := lift2 Qplus;
  f_sub := lift2 Qminus;
  f_mul := lift2 Qmult;
  f_div := div;
  f_abs := option_map Qabs;
  f_pow := lift2 QNum.Qpow;
  f_log10 := log10;
  f_leb := test2 Qle_bool;
  f_eqb := test2 Qeq_bool;
  f_isnan := fun x => match x with None => true | Some _ => false end
}.

Definition derivatize_as_sibling (num denom : list (option Q))
  : result (list (option Q)) :=
  match timedata_helper._derivatize (float_array num) (float_array denom) with
  | Ok v =>
      match as_vector v with
      | Some d => Ok d
      | None => Raise (TypeError "not a vector")
      end
  | Raise e => Raise e
  end.

(** An inverter whose residual does not move between the first two omegas
    of a sweep from 1 to 100. *)
Definition flat_inverter (w : option Q) : result (pyval (option Q) * option Q * option Q) :=
  match w with
  | Some a =>
      if Qle_bool a 10 then Ok (PyNone, Some 10%Q, Some (1000 / a)%Q)
      else Ok (PyNone, Some 100%Q, Some (1000 / a)%Q)
  | None => Raise (Exn "LinAlgError" "array must not contain infs or NaNs")
  end.

Definition flat_imports : model.Imports (option Q) := {|
  model.assert_len := timedata_helper._assert_lent;
  model.derivatize := derivatize_as_sibling;
  model.round_to_sigfig := fun v _ => Ok v;
  model._calc_f := fun _ _ w => flat_inverter w;
  model._rpo_calc_A := fun _ _ _ _ => Ok (PyArray [])
|}.

Definition a_model : model.Model (option Q) := {|
  model.self_A := PyArray [];
  model.self_model_type := "Daem";
  model.self_nt := 0;
  model.self_t := PyArray [];
  model.self_T := PyArray []
|}.

Definition a_thermogram : model.pyobject (option Q) := {|
  model.obj_classes := ["RpoThermogram"; "TimeData"; "object"];
  model.obj_attrs := []
|}.

(** An inverter whose residual stays at 10 up to [omega = 1]: its L-curve
    has a plateau of the log-residual. *)
Definition plateau_inverter (w : option Q)
  : result (pyval (option Q) * option Q * option Q) :=
  match w with
  | Some a =>
      if Qle_bool a 1 then Ok (PyNone, Some 10%Q, Some (1000 / (a * a))%Q)
      else Ok (PyNone, Some (10 * (a * a * a))%Q, Some 1000%Q)
  | None => Raise (Exn "LinAlgError" "array must not contain infs or NaNs")
  end.

Definition plateau_imports : model.Imports (option Q) := {|
  model.assert_len := timedata_helper._assert_lent;
  model.derivatize := derivatize_as_sibling;
  model.round_to_sigfig := fun v _ => Ok v;
  model._calc_f := fun _ _ w => plateau_inverter w;
  model._rpo_calc_A := fun _ _ _ _ => Ok (PyArray [])
|}.

(** An inverter whose residual grows and whose roughness falls all along
    the sweep, both being powers of ten at the powers of ten: steep up to
    [omega = 1], flat after it. *)
Definition bend_inverter (w : option Q)
  : result (pyval (option Q) * option Q * option Q) :=
  match w with
  | Some a =>
      if Qle_bool a 1 then Ok (PyNone, Some (1000 * a)%Q, Some (100000 / (a * a))%Q)
      else Ok (PyNone, Some (1000 * (a * a))%Q, Some (100000 / a)%Q)
  | None => Raise (Exn "LinAlgError" "array must not contain infs or NaNs")
  end.

Definition bend_imports : model.Imports (option Q) := {|
  model.assert_len := timedata_helper._assert_lent;
  model.derivatize := derivatize_as_sibling;
  model.round_to_sigfig := fun v _ => Ok v;
  model._calc_f := fun _ _ w => bend_inverter w;
  model._rpo_calc_A := fun _ _ _ _ => Ok (PyArray [])
|}.

End NaNQ.

(** * Properties *)

(** ** The monad *)

Section PyLaws.

Context {F : Type}.

Lemma bind_ret_l {A B} (a : A) (f : A -> Py F B) : bind (ret a) f = f a.
Proof. unfold bind, ret. destruct (f a); reflexivity. Qed.

Lemma bind_raise {A B} (e : exn) (f : A -> Py F B) : bind (raise e) f = raise e.
Proof. reflexivity. Qed.

Lemma bind_lift_ok {A B} (a : A) (f : A -> Py F B) : bind (lift (Ok a)) f = f a.
Proof. apply bind_ret_l. Qed.

Lemma bind_lift_raise {A B} (e : exn) (f : A -> Py F B) :
  bind (lift (Raise e)) f = ([], Raise e).
Proof. reflexivity. Qed.

Lemma bind_emit {B} (ev : event F) (k : Py F B) :
  bind (emit ev) (fun _ => k) = (ev :: fst k, snd k).
Proof. unfold bind, emit. destruct k; reflexivity. Qed.

Lemma events_bind_ok {A B} (m : Py F A) (f : A -> Py F B) (a : A) :
  outcome m = Ok a ->
  events (bind m f) = (events m ++ events (f a))%list /\
  outcome (bind m f) = outcome (f a).
Proof.
  destruct m as [log r]; simpl; intros ->.
  destruct (f a); simpl; auto.
Qed.

Lemma bind_raises {A B} (m : Py F A) (f : A -> Py F B) (e : exn) :
  outcome m = Raise e -> bind m f = (events m, Raise e).
Proof. destruct m as [log r]; simpl; intros ->; reflexivity. Qed.

End PyLaws.

(** ** Scalars and arrays *)

Section ValueFacts.

Context {F : Type} {NF : Float64 F}.

Lemma float_value_isinstance (v : pyval F) :
  isinstance_int_float v = true <-> exists x, float_value v = Some x.
Proof.
  destruct v; simpl; split; intros H; try discriminate; eauto;
    destruct H as [x H]; discriminate.
Qed.

Lemma float_value_none (v : pyval F) :
  isinstance_int_float v = false <-> float_value v = None.
Proof. destruct v; simpl; split; intros H; congruence. Qed.

Lemma int_value_none (v : pyval F) :
  isinstance_int v = false <-> int_value v = None.
Proof. destruct v; simpl; split; intros H; congruence. Qed.

Lemma array_like_not_scalar (v : pyval F) :
  array_like v -> float_value v = None.
Proof. destruct v; simpl; intros H; try discriminate; reflexivity. Qed.


Lemma py_len_np_array (v : pyval F) :
  array_like v -> py_len (np_array v) = py_len v.
Proof.
  destruct v; simpl; intros H; try discriminate; trivial.
  now rewrite length_map.
Qed.

End ValueFacts.

(** ** [Daem]: the warnings of the constructors *)

Section DaemWarnings.

Context {F : Type} {NF : Float64 F} {IM : model.Imports F}.

(** [warnings] is not among the names the module binds. *)
Lemma warnings_not_bound :
  existsb (String.eqb "warnings")
          (model.module_imports ++ model.module_classes ++ model.builtins) = false.
Proof. reflexivity. Qed.

(** So a call of [warnings.warn] raises [NameError] and issues nothing. *)
Lemma warnings_warn_NameError (msg : string) :
  model.warnings_warn (F:=F) msg = ([], Raise (NameError "warnings")).
Proof. reflexivity. Qed.

(** C1. The specification has [Daem(Ea, log10k0, t, T)] accept a scalar
    temperature, warn, and build the model.  The code does not: for every
    scalar [T] the constructor stops at [warnings.warn] with
    [NameError: name 'warnings' is not defined], before the transform matrix
    is computed; no warning is issued and no model is built. *)
Theorem Daem_init_scalar_T_NameError (Ea log10k0 t T : pyval F) :
  scalar T ->
  model.Daem__init__ Ea log10k0 t T = ([], Raise (NameError "warnings")).
Proof.
  unfold scalar, model.Daem__init__. intros ->.
  rewrite warnings_warn_NameError. reflexivity.
Qed.

(** A temperature array is not warned about: the constructor goes straight
    to the transform matrix. *)
Lemma Daem_init_array_T (Ea log10k0 t T : pyval F) :
  array_like T ->
  model.Daem__init__ Ea log10k0 t T =
  bind (lift (model._rpo_calc_A Ea log10k0 t T)) (fun A =>
  bind (lift (model.LaplaceTransform__init__ A "Daem" t T)) (fun super =>
  bind (lift (py_len Ea)) (fun nEa =>
  bind (lift (model.assert_len Ea (PyInt (Z.of_nat nEa)))) (fun Ea' =>
  ret {| model.daem_super := super; model.self_log10k0 := log10k0;
         model.self_Ea := Ea'; model.self_nEa := nEa |})))).
Proof.
  unfold array_like, model.Daem__init__. intros H.
  assert (isinstance_int_float T = false) as -> by (destruct T; simpl in *; congruence).
  rewrite bind_ret_l. reflexivity.
Qed.

(** [from_timedata] takes the same road for a [timedata] that is not an
    [RpoThermogram]: its [warnings.warn] raises [NameError]. *)
Lemma from_timedata_other_class_NameError
    (timedata : model.pyobject F) (Ea_max Ea_min : F) (log10k0 : pyval F) (nEa : Z) :
  model.isinstance timedata "RpoThermogram" = false ->
  model.Daem_from_timedata timedata Ea_max Ea_min log10k0 nEa
  = ([], Raise (NameError "warnings")).
Proof.
  unfold model.Daem_from_timedata. intros ->. simpl negb. cbv iota.
  rewrite warnings_warn_NameError. reflexivity.
Qed.

(** C5, as the code has it.  A [ratedata] that is not an [EnergyComplex]
    is refused by [Daem.from_ratedata] with a [TypeError]: nothing is
    warned, and no model is built. *)
Theorem from_ratedata_other_class_TypeError
    (ratedata : model.pyobject F) (beta : F) (log10k0 : pyval F) (nt : Z)
    (t0 T0 tf : F) :
  model.isinstance ratedata "EnergyComplex" = false ->
  model.Daem_from_ratedata ratedata beta log10k0 nt t0 T0 tf
  = ([], Raise (TypeError model.ratedata_class_msg)).
Proof.
  unfold model.Daem_from_ratedata. intros ->. reflexivity.
Qed.

End DaemWarnings.

Section DaemWarningsRun.

Import QNum.

Lemma Daem_init_scalar_T_NameError_witness :
  scalar (F:=Q) (PyInt 300) /\
  model.Daem__init__ (IM:=plain_imports)
    (PyList [PyInt 50; PyInt 60]) (PyInt 10) (PyList [PyInt 0; PyInt 1; PyInt 2])
    (PyInt 300)
  = ([], Raise (NameError "warnings")).
Proof.
  split; [reflexivity|].
  apply (Daem_init_scalar_T_NameError (IM:=plain_imports)). reflexivity.
Defined.

(** C5 fails for [from_ratedata]: on [a_ratedata], with the keyword
    defaults, the call raises [TypeError] and warns of nothing. *)
Lemma from_ratedata_blocks :
  let run := model.Daem_from_ratedata (IM:=plain_imports)
               a_ratedata (8 # 100)%Q (PyInt 10) 250 0%Q 373%Q 10000%Q in
  warnings_of (events run) = [] /\
  exists msg, outcome run = Raise (TypeError msg).
Proof. simpl. split; [reflexivity | eexists; reflexivity]. Qed.

Lemma from_ratedata_other_class_TypeError_witness :
  model.isinstance a_ratedata "EnergyComplex" = false /\
  model.Daem_from_ratedata (IM:=plain_imports)
    a_ratedata (8 # 100)%Q (PyInt 10) 250 0%Q 373%Q 10000%Q
  = ([], Raise (TypeError model.ratedata_class_msg)).
Proof.
  split; [reflexivity|].
  apply (from_ratedata_other_class_TypeError (IM:=plain_imports)). reflexivity.
Defined.

End DaemWarningsRun.

(** ** [_assert_lent] *)

Section AssertLent.

Context {F : Type} {NF : Float64 F}.

Import timedata_helper.

Lemma assert_lent_array_ok (a : pyval F) (n : nat) :
  array_like a -> py_len a = Ok n ->
  _assert_lent a (PyInt (Z.of_nat n)) = Ok (np_array a).
Proof.
  intros Ha Hn. unfold _assert_lent. simpl int_value.
  rewrite (array_like_not_scalar Ha).
  destruct a as [| | | | |l|l]; try discriminate Ha; simpl in Hn;
    injection Hn as <-; now rewrite Z.eqb_refl.
Qed.



(** Whatever it is given, what [_assert_lent] returns has length [nt]. *)
Lemma assert_lent_len (a r : pyval F) (n : nat) :
  _assert_lent a (PyInt (Z.of_nat n)) = Ok r -> py_len r = Ok n.
Proof.
  unfold _assert_lent. simpl int_value.
  destruct (float_value a) as [x|] eqn:Hx.
  - unfold scalar_times_ones.
    destruct (Z.ltb_spec (Z.of_nat n) 0) as [H|H]; [discriminate|].
    intros [= <-]. simpl. unfold np_ones.
    now rewrite !length_map, repeat_length, Nat2Z.id.
  - destruct a as [| | | | |l|l]; try discriminate;
      (destruct (Z.eqb_spec (Z.of_nat (List.length l)) (Z.of_nat n)) as [E|E];
       simpl; [|discriminate]);
      intros [= <-]; simpl; rewrite ?length_map; f_equal; now apply Nat2Z.inj.
Qed.

End AssertLent.

(** ** [Model.__init__]: the lengths *)

Section ModelInit.

Context {F : Type} {NF : Float64 F} {IM : model.Imports F}.

(** [assert_len] of [core_functions] is not among the sources; the length
    helper that is, [_assert_lent], stands for it. *)
Hypothesis assert_len_is :
  forall a n, model.assert_len a n = timedata_helper._assert_lent a n.







End ModelInit.

Section ModelInitRun.

Import QNum.


End ModelInitRun.

(** ** [_rpo_extract_tg]: the column check *)

Section ExtractTg.

Context {F : Type} {NF : Float64 F}.

Import timedata_helper.

Lemma not_in_columns_false (name : string) (df : DataFrame (F:=F)) :
  In name (map fst (columns df)) -> not_in_columns name df = false.
Proof.
  intros H. unfold not_in_columns. apply negb_false_iff, existsb_exists.
  exists name. split; [assumption | apply String.eqb_refl].
Qed.

Lemma column_missing (name : string) (df : DataFrame (F:=F)) :
  ~ In name (map fst (columns df)) -> column df name = Raise (AttributeError name).
Proof.
  intros H. unfold column.
  destruct (find _ (columns df)) as [c|] eqn:E; [|reflexivity].
  apply find_some in E as [Hin Heq]. apply String.eqb_eq in Heq. subst name.
  exfalso. apply H. now apply in_map.
Qed.

(** The test of the [if]: ['CO2_scaled' and 'temp' not in file.columns] is
    ['temp' not in file.columns], the string ['CO2_scaled'] being true. *)
Lemma column_test_is_temp_only (df : DataFrame (F:=F)) :
  truthy (py_and (PyStr "CO2_scaled") (PyBool (not_in_columns "temp" df)))
  = not_in_columns "temp" df.
Proof. reflexivity. Qed.

(** C9. A frame with a [DatetimeIndex] and a column ["temp"] but no column
    ["CO2_scaled"] passes the checks of [_rpo_extract_tg]: the column check
    looks for ["temp"] only.  The call then fails later, and not with the
    [ValueError] of the check. *)
Theorem rpo_extract_tg_accepts_missing_CO2_scaled
    (env : extract_env (F:=F)) (df : DataFrame (F:=F)) (stamps : list Z) :
  df_index df = DatetimeIndex stamps ->
  In "temp" (map fst (columns df)) ->
  ~ In "CO2_scaled" (map fst (columns df)) ->
  _rpo_extract_tg_checks env (FileFrame df) = Ok df /\
  forall nt err, exists e,
    _rpo_extract_tg env (FileFrame df) nt err = Raise e /\
    exn_class e <> "ValueError".
Proof.
  intros Hidx Htemp Hco2.
  assert (Hchk : _rpo_extract_tg_checks env (FileFrame df) = Ok df).
  { unfold _rpo_extract_tg_checks. cbn [rbind].
    rewrite column_test_is_temp_only, (not_in_columns_false _ _ Htemp).
    now rewrite Hidx. }
  split; [exact Hchk|].
  intros nt err. unfold _rpo_extract_tg. rewrite Hchk. cbn [rbind].
  rewrite Hidx. destruct stamps as [|s0 stamps].
  - eexists; split; [reflexivity | discriminate].
  - cbn [rbind]. rewrite (column_missing _ _ Hco2).
    eexists; split; [reflexivity | discriminate].
Qed.

End ExtractTg.

Section ExtractTgRun.

Import QNum.

Lemma rpo_extract_tg_accepts_missing_CO2_scaled_witness :
  timedata_helper._rpo_extract_tg_checks an_extract_env
    (timedata_helper.FileFrame a_frame_without_CO2) = Ok a_frame_without_CO2 /\
  forall nt err, exists e,
    timedata_helper._rpo_extract_tg an_extract_env
      (timedata_helper.FileFrame a_frame_without_CO2) nt err = Raise e /\
    exn_class e <> "ValueError".
Proof.
  apply (rpo_extract_tg_accepts_missing_CO2_scaled an_extract_env
           a_frame_without_CO2 (stamps:=[0; 1; 2])).
  - reflexivity.
  - simpl. auto.
  - simpl. intros [H|[]]. discriminate H.
Defined.

(** On that frame the call goes on to [file.CO2_scaled], which fails. *)
Example rpo_extract_tg_run :
  timedata_helper._rpo_extract_tg an_extract_env
    (timedata_helper.FileFrame a_frame_without_CO2) (PyInt 250) (PyInt 5)
  = Raise (AttributeError "CO2_scaled").
Proof. reflexivity. Qed.

End ExtractTgRun.

(** ** [_derivatize]: the guard *)

Section Derivatize.

Context {F : Type} {NF : Float64 F}.

Import timedata_helper.

Lemma scalars_length (l : list (pyval F)) (v : list F) :
  scalars l = Some v -> List.length v = List.length l.
Proof.
  revert v. induction l as [|a l IH]; simpl; intros v.
  - now intros [= <-].
  - destruct (float_value a); [|discriminate].
    destruct (scalars l) as [xs|]; [|discriminate].
    intros [= <-]. simpl. f_equal. now apply IH.
Qed.

Lemma as_vector_array_like (x : pyval F) (v : list F) :
  as_vector x = Some v ->
  array_like x /\ py_len x = Ok (List.length v) /\
  (2 <= List.length v -> np_gradient x = Ok (gradient v))%nat.
Proof.
  destruct x as [| | | | |l|l]; simpl; try discriminate; intros Hv;
    (split; [reflexivity|]); rewrite Hv;
    (split; [now rewrite (scalars_length _ Hv)|]); intros Hlen;
    (destruct (Nat.ltb_spec (List.length v) 2); [lia | reflexivity]).
Qed.

Lemma gradient_length (v : list F) : List.length (gradient v) = List.length v.
Proof. unfold gradient. now rewrite length_map, length_seq. Qed.

(** The guard [any(dd) <= 0] is the test [not any(dd)]. *)
Lemma guard_is_not_any (b : bool) : bool_le_0 b = negb b.
Proof. destruct b; reflexivity. Qed.



End Derivatize.

Section DerivatizeRun.

Import QNum.



(** A strictly decreasing [denom]: the derivative comes back, not zeros. *)
Example derivatize_decreasing_run :
  timedata_helper._derivatize
    (PyList (F:=Q) [PyInt 1; PyInt 2; PyInt 4]) (PyList [PyInt 3; PyInt 2; PyInt 1])
  = Ok (PyArray [PyFloat (-1)%Q; PyFloat (-6 # 4)%Q; PyFloat (-2)%Q]).
Proof. reflexivity. Qed.

End DerivatizeRun.

(** ** [calc_L_curve] *)

Section LCurve.

Context {F : Type} {NF : Float64 F} {IM : model.Imports F}.

Variables (self : model.Model F) (timedata : model.pyobject F).

(** *** The sweep loop *)

Lemma calc_f_calls_app (l1 l2 : list (event F)) :
  calc_f_calls (l1 ++ l2) = (calc_f_calls l1 ++ calc_f_calls l2)%list.
Proof.
  induction l1 as [|ev l1 IH]; simpl; [reflexivity|].
  destruct ev; simpl; now rewrite IH.
Qed.

Lemma calc_f_calls_map (ws : list F) :
  calc_f_calls (map (@Called_calc_f F) ws) = ws.
Proof. induction ws as [|w ws IH]; simpl; [reflexivity | now rewrite IH]. Qed.

Lemma call_calc_f_run (w : F) :
  model.call_calc_f self timedata w
  = ([Called_calc_f w], model._calc_f self timedata w).
Proof. reflexivity. Qed.

(** A sweep whose inversions all return calls the inverter once per omega,
    in order, and appends the norms it reports. *)
Lemma sweep_ok (om_vec res_vec rgh_vec : list F) :
  inverts self timedata om_vec ->
  model.sweep self timedata om_vec res_vec rgh_vec
  = (map (@Called_calc_f F) om_vec,
     Ok ((res_vec ++ map (residual_of self timedata) om_vec)%list,
         (rgh_vec ++ map (roughness_of self timedata) om_vec)%list)).
Proof.
  revert res_vec rgh_vec.
  induction om_vec as [|w ws IH]; intros res_vec rgh_vec Hinv;
    cbn [model.sweep map].
  - now rewrite !app_nil_r.
  - rewrite call_calc_f_run.
    assert (Hw := Hinv w (or_introl eq_refl)).
    unfold residual_of, roughness_of at 1.
    destruct (model._calc_f self timedata w) as [[[f res] rgh]|e] eqn:Ew;
      [|discriminate Hw].
    unfold bind.
    rewrite IH by (intros w' Hw'; apply Hinv; now right).
    simpl. now rewrite <- !app_assoc.
Qed.

(** A sweep stops at the first inversion that raises: the omegas before it
    have been tried, it has been tried once, none after it is, and its error
    is the outcome. *)
Lemma sweep_raises (pre post res_vec rgh_vec : list F) (w : F) (e : exn) :
  inverts self timedata pre ->
  model._calc_f self timedata w = Raise e ->
  model.sweep self timedata (pre ++ w :: post) res_vec rgh_vec
  = (map (@Called_calc_f F) (pre ++ [w]), Raise e).
Proof.
  revert res_vec rgh_vec.
  induction pre as [|w0 pre IH]; intros res_vec rgh_vec Hinv Hw;
    cbn [model.sweep map app].
  - rewrite call_calc_f_run, Hw. reflexivity.
  - rewrite call_calc_f_run.
    assert (H0 := Hinv w0 (or_introl eq_refl)).
    destruct (model._calc_f self timedata w0) as [[[f res] rgh]|e0] eqn:Ew;
      [|discriminate H0].
    unfold bind.
    rewrite IH by (try assumption; intros w' Hw'; apply Hinv; now right).
    reflexivity.
Qed.

(** In every case the inverter is called on a prefix of the sweep, in
    order, and on nothing else. *)
Lemma sweep_events (om_vec res_vec rgh_vec : list F) :
  exists k, events (model.sweep self timedata om_vec res_vec rgh_vec)
            = map (@Called_calc_f F) (firstn k om_vec).
Proof.
  revert res_vec rgh_vec.
  induction om_vec as [|w ws IH]; intros res_vec rgh_vec; cbn [model.sweep].
  - exists 0%nat. reflexivity.
  - rewrite call_calc_f_run.
    destruct (model._calc_f self timedata w) as [[[f res] rgh]|e] eqn:Ew.
    + destruct (IH (res_vec ++ [res])%list (rgh_vec ++ [rgh])%list) as [k Hk].
      exists (S k). unfold bind.
      destruct (model.sweep self timedata ws _ _) as [log r]. simpl in *.
      now rewrite Hk.
    + exists 1%nat. reflexivity.
Qed.

(** *** The method, once its arguments have passed the checks *)

Lemma bind_ext {A B} (m : Py F A) (f g : A -> Py F B) :
  (forall a, f a = g a) -> bind m f = bind m g.
Proof.
  intros H. destruct m as [log [a|e]]; simpl; [now rewrite H | reflexivity].
Qed.

Lemma calc_L_curve_checked (ax : option string) (nOm om_max om_min : pyval F)
    (plot : bool) (mx mn : F) (n : Z) :
  float_value om_max = Some mx -> float_value om_min = Some mn ->
  int_value nOm = Some n ->
  model.calc_L_curve self timedata ax nOm om_max om_min plot
  = bind (lift (model.np_linspace (f_log10 mn) (f_log10 mx) n)) (fun es =>
      let om_vec := map (f_pow (f_of_Z 10)) es in
      bind (model.sweep self timedata om_vec [] []) (fun vecs =>
        after_sweep om_vec (fst vecs) (snd vecs) ax plot)).
Proof.
  intros Hmx Hmn Hn. unfold model.calc_L_curve. rewrite Hmx, Hmn, Hn.
  apply bind_ext. intros es. cbv zeta. apply bind_ext. intros [res_vec rgh_vec].
  reflexivity.
Qed.

(** After the sweep the inverter is not called again. *)
Lemma no_calc_f_bind {A B} (m : Py F A) (f : A -> Py F B) :
  calc_f_calls (events m) = [] ->
  (forall a, calc_f_calls (events (f a)) = []) ->
  calc_f_calls (events (bind m f)) = [].
Proof.
  intros Hm Hf. destruct m as [log [a|e]]; simpl in *; [|assumption].
  specialize (Hf a). destruct (f a) as [log' r]. simpl in *.
  now rewrite calc_f_calls_app, Hm, Hf.
Qed.

Lemma no_calc_f_lift {A} (r : result A) : calc_f_calls (events (lift (F:=F) r)) = [].
Proof. reflexivity. Qed.

Lemma after_sweep_no_calc_f (om_vec res_vec rgh_vec : list F) (ax : option string)
    (plot : bool) :
  calc_f_calls (events (after_sweep om_vec res_vec rgh_vec ax plot)) = [].
Proof.
  unfold after_sweep, model.call_round_to_sigfig, model.call_derivatize.
  cbv zeta.
  repeat first
    [ apply no_calc_f_bind; [|intros ?]
    | apply no_calc_f_lift
    | reflexivity
    | match goal with |- context [if ?b then _ else _] => destruct b end ].
Qed.

(** *** [np.linspace] *)

Lemma np_linspace_length (start stop : F) (n : Z) :
  0 <= n ->
  exists es, model.np_linspace start stop n = Ok es /\
             List.length es = Z.to_nat n.
Proof.
  intros Hn. unfold model.np_linspace.
  destruct (Z.ltb_spec n 0) as [H|_]; [lia|].
  eexists. split; [reflexivity|].
  set (y := map (fun x => f_add x start) _).
  assert (Hy : List.length y = Z.to_nat n).
  { subst y. rewrite length_map.
    destruct (0 <? n - 1); [destruct (f_eqb _ _)|];
      now rewrite !length_map, length_seq. }
  destruct (Z.ltb_spec 1 n) as [H1|H1]; [|exact Hy].
  rewrite length_app, removelast_firstn_len, length_firstn, Hy. simpl. lia.
Qed.

Lemma np_linspace_entries (start stop : F) (n : Z) (es : list F) :
  1 < n -> model.np_linspace start stop n = Ok es ->
  (forall i, (i < Z.to_nat n - 1)%nat ->
     nth_error es i = Some (linspace_entry start stop n i)) /\
  nth_error es (Z.to_nat n - 1) = Some stop.
Proof.
  intros Hn. unfold model.np_linspace.
  destruct (Z.ltb_spec n 0) as [H|_]; [lia|].
  destruct (Z.ltb_spec 0 (n - 1)) as [_|H]; [|lia].
  destruct (Z.ltb_spec 1 n) as [_|H]; [|lia].
  set (y := map (fun x => f_add x start) _).
  assert (Hy : List.length y = Z.to_nat n).
  { subst y. destruct (f_eqb _ _); now rewrite !length_map, length_seq. }
  assert (Hent : forall i, (i < Z.to_nat n)%nat ->
                   nth_error y i = Some (linspace_entry start stop n i)).
  { intros i Hi. subst y. unfold linspace_entry. cbv zeta.
    destruct (f_eqb _ _);
      rewrite !nth_error_map, nth_error_seq;
      (destruct (Nat.ltb_spec i (Z.to_nat n)); [reflexivity | lia]). }
  intros [= <-]. split.
  - intros i Hi.
    rewrite nth_error_app1
      by (rewrite removelast_firstn_len, length_firstn, Hy; lia).
    rewrite removelast_firstn_len, nth_error_firstn, Hy.
    destruct (Nat.ltb_spec i (pred (Z.to_nat n))); [|lia].
    apply Hent. lia.
  - rewrite nth_error_app2
      by (rewrite removelast_firstn_len, length_firstn, Hy; lia).
    rewrite removelast_firstn_len, length_firstn, Hy.
    replace (Z.to_nat n - 1 - Nat.min (pred (Z.to_nat n)) (Z.to_nat n))%nat
      with 0%nat by lia.
    reflexivity.
Qed.

(** One sample: the start, by the arithmetic of the general case. *)
Lemma np_linspace_one (start stop : F) :
  model.np_linspace start stop 1
  = Ok [f_add (f_mul (f_of_nat 0) (f_sub stop start)) start].
Proof. reflexivity. Qed.

(** *** The checks of the arguments *)

(** With arguments of the checked types and a positive [nOm], the first
    thing the method does after [np.linspace] is to call the inverter,
    whatever the signs of [om_min] and [om_max]. *)
Lemma calc_L_curve_reaches_inverter (ax : option string)
    (nOm om_max om_min : pyval F) (plot : bool) (n : Z) :
  isinstance_int_float om_max = true -> isinstance_int_float om_min = true ->
  int_value nOm = Some n -> 0 < n ->
  exists w rest,
    events (model.calc_L_curve self timedata ax nOm om_max om_min plot)
    = Called_calc_f w :: rest.
Proof.
  intros Hmx Hmn Hn Hpos.
  apply float_value_isinstance in Hmx as [mx Hmx].
  apply float_value_isinstance in Hmn as [mn Hmn].
  rewrite (calc_L_curve_checked ax _ _ _ plot Hmx Hmn Hn).
  destruct (np_linspace_length (f_log10 mn) (f_log10 mx) (n:=n)) as (es & -> & Hlen);
    [lia|].
  rewrite bind_lift_ok. cbv zeta.
  destruct es as [|e es]; [simpl in Hlen; lia|].
  cbn [map model.sweep]. rewrite call_calc_f_run.
  exists (f_pow (f_of_Z 10) e).
  destruct (model._calc_f self timedata _) as [[[f res] rgh]|err].
  - unfold bind at 2.
    destruct (model.sweep self timedata _ _ _) as [log [vecs|err]]; simpl.
    + destruct (after_sweep _ _ _ _ _). simpl. eauto.
    + eauto.
  - simpl. eauto.
Qed.

(** C2, as the code has it.  [calc_L_curve] checks the types of its sweep
    arguments and nothing else: an [om_max] or [om_min] that is neither
    [int] nor [float], and an [nOm] that is not an [int], are refused with a
    [TypeError] before anything is computed or inverted; their signs are not
    looked at, and with a positive [nOm] the inverter is called whatever
    the bounds are. *)
Theorem calc_L_curve_type_checks (ax : option string)
    (nOm om_max om_min : pyval F) (plot : bool) :
  let run := model.calc_L_curve self timedata ax nOm om_max om_min plot in
  (isinstance_int_float om_max = false ->
   run = ([], Raise (TypeError "om_max must be float or int"))) /\
  (isinstance_int_float om_max = true -> isinstance_int_float om_min = false ->
   run = ([], Raise (TypeError "om_min must be float or int"))) /\
  (isinstance_int_float om_max = true -> isinstance_int_float om_min = true ->
   isinstance_int nOm = false ->
   run = ([], Raise (TypeError "nOm must be int"))) /\
  (isinstance_int_float om_max = true -> isinstance_int_float om_min = true ->
   forall n, int_value nOm = Some n -> 0 < n ->
   exists w rest, events run = Called_calc_f w :: rest).
Proof.
  cbv zeta. unfold model.calc_L_curve. repeat split.
  - intros H. apply float_value_none in H. now rewrite H.
  - intros H1 H2. apply float_value_isinstance in H1 as [mx ->].
    apply float_value_none in H2. now rewrite H2.
  - intros H1 H2 H3. apply float_value_isinstance in H1 as [mx ->].
    apply float_value_isinstance in H2 as [mn ->].
    apply int_value_none in H3. now rewrite H3.
  - intros H1 H2 n Hn Hpos.
    exact (calc_L_curve_reaches_inverter ax _ _ _ plot H1 H2 Hn Hpos).
Qed.

(** *** The omegas of the sweep *)

(** C6. With [om_max], [om_min] numbers and [nOm] a positive int, the
    omegas handed to the inverter are, in order, [10 ** e] for the [nOm]
    exponents [e] of [np.linspace(log10(om_min), log10(om_max), nOm)]:
    exponent [i] lies [i] steps of [(log10(om_max) - log10(om_min))/(nOm - 1)]
    from [log10(om_min)], the last one is [log10(om_max)].  All of them
    are tried when no inversion raises, and in any case none but a prefix of
    them is.  The keyword defaults are [nOm = 150], [om_max = 1e2],
    [om_min = 1e-3]. *)
Theorem calc_L_curve_log_spaced (ax : option string)
    (nOm om_max om_min : pyval F) (plot : bool) (mx mn : F) (n : Z) :
  float_value om_max = Some mx -> float_value om_min = Some mn ->
  int_value nOm = Some n -> 0 < n ->
  let run := model.calc_L_curve self timedata ax nOm om_max om_min plot in
  exists es,
    model.np_linspace (f_log10 mn) (f_log10 mx) n = Ok es /\
    List.length es = Z.to_nat n /\
    (1 < n ->
     (forall i, (i < Z.to_nat n - 1)%nat ->
        nth_error es i = Some (linspace_entry (f_log10 mn) (f_log10 mx) n i)) /\
     nth_error es (Z.to_nat n - 1) = Some (f_log10 mx)) /\
    (n = 1 ->
     es = [f_add (f_mul (f_of_nat 0) (f_sub (f_log10 mx) (f_log10 mn)))
                 (f_log10 mn)]) /\
    let om_vec := map (f_pow (f_of_Z 10)) es in
    (exists k, calc_f_calls (events run) = firstn k om_vec) /\
    (inverts self timedata om_vec -> calc_f_calls (events run) = om_vec) /\
    model.calc_L_curve_default self timedata
    = model.calc_L_curve self timedata None (PyInt 150) (PyFloat (f_of_Q 100))
        (PyFloat (f_of_Q (1 # 1000))) false.
Proof.
  intros Hmx Hmn Hn Hpos. cbv zeta.
  rewrite (calc_L_curve_checked ax _ _ _ plot Hmx Hmn Hn).
  destruct (np_linspace_length (f_log10 mn) (f_log10 mx) (n:=n)) as (es & Hes & Hlen);
    [lia|].
  exists es. rewrite Hes, bind_lift_ok. cbv zeta.
  split; [reflexivity|]. split; [exact Hlen|].
  split; [intros H1; eapply np_linspace_entries; eassumption|].
  split.
  { intros ->. rewrite np_linspace_one in Hes. now injection Hes as <-. }
  set (om_vec := map (f_pow (f_of_Z 10)) es).
  split; [|split; [|reflexivity]].
  - destruct (sweep_events om_vec [] []) as [k Hk].
    destruct (model.sweep self timedata om_vec [] []) as [log [vecs|e]] eqn:Es;
      simpl in Hk.
    + exists k.
      destruct (@events_bind_ok F _ _ (log, Ok vecs)
                  (fun vecs => after_sweep om_vec (fst vecs) (snd vecs) ax plot)
                  vecs eq_refl) as [-> _].
      rewrite calc_f_calls_app, after_sweep_no_calc_f, app_nil_r.
      simpl. now rewrite Hk, calc_f_calls_map.
    + exists k. simpl. now rewrite Hk, calc_f_calls_map.
  - intros Hinv. rewrite (sweep_ok [] [] Hinv).
    match goal with
    | |- calc_f_calls (events (bind (?log, Ok ?v) ?f)) = _ =>
        destruct (@events_bind_ok F _ _ (log, Ok v) f v eq_refl) as [-> _]
    end.
    rewrite calc_f_calls_app, after_sweep_no_calc_f, app_nil_r.
    simpl. apply calc_f_calls_map.
Qed.

(** *** Errors of the inverter *)

(** C7. When the inverter raises at one omega of the sweep, having
    returned for the omegas before it, [calc_L_curve] ends with that very
    error: the inverter has been called once for each omega up to this one,
    in order, and nothing else has been done; no later omega is tried and
    none is tried again. *)
Theorem calc_L_curve_propagates (ax : option string)
    (nOm om_max om_min : pyval F) (plot : bool) (mx mn : F) (n : Z)
    (es pre post : list F) (w : F) (e : exn) :
  float_value om_max = Some mx -> float_value om_min = Some mn ->
  int_value nOm = Some n ->
  model.np_linspace (f_log10 mn) (f_log10 mx) n = Ok es ->
  map (f_pow (f_of_Z 10)) es = (pre ++ w :: post)%list ->
  inverts self timedata pre ->
  model._calc_f self timedata w = Raise e ->
  model.calc_L_curve self timedata ax nOm om_max om_min plot
  = (map (@Called_calc_f F) (pre ++ [w]), Raise e).
Proof.
  intros Hmx Hmn Hn Hes Hom Hpre Hw.
  rewrite (calc_L_curve_checked ax _ _ _ plot Hmx Hmn Hn).
  rewrite Hes, bind_lift_ok. cbv zeta.
  rewrite Hom, (@sweep_raises pre post [] [] w e Hpre Hw).
  reflexivity.
Qed.

(** *** Rounding comes before the derivatives *)

Lemma events_bind_Forall {A B} (P : event F -> Prop) (m : Py F A) (f : A -> Py F B) :
  Forall P (events m) -> (forall a, Forall P (events (f a))) ->
  Forall P (events (bind m f)).
Proof.
  intros Hm Hf. destruct m as [log [a|e]]; simpl in *; [|assumption].
  specialize (Hf a). destruct (f a) as [log' r]. simpl in *.
  apply Forall_app. now split.
Qed.

Lemma bind_call_derivatize {B} (num denom : list F) (f : list F -> Py F B) :
  bind (model.call_derivatize num denom) f
  = (Called_derivatize num denom
       :: events (bind (lift (model.derivatize num denom)) f),
     outcome (bind (lift (model.derivatize num denom)) f)).
Proof.
  unfold model.call_derivatize.
  destruct (model.derivatize num denom) as [d|e]; simpl; [|reflexivity].
  destruct (f d); reflexivity.
Qed.

Lemma bind_call_round_to_sigfig {B} (vec : list F) (n : Z) (f : list F -> Py F B) :
  bind (model.call_round_to_sigfig vec n) f
  = (Called_round_to_sigfig vec n
       :: events (bind (lift (model.round_to_sigfig vec n)) f),
     outcome (bind (lift (model.round_to_sigfig vec n)) f)).
Proof.
  unfold model.call_round_to_sigfig.
  destruct (model.round_to_sigfig vec n) as [d|e]; simpl; [|reflexivity].
  destruct (f d); reflexivity.
Qed.

Lemma corner_of_events (om_vec x y : list F) (ax : option string) (plot : bool) :
  exists rest,
    events (corner_of om_vec x y ax plot) = Called_derivatize y x :: rest /\
    Forall (follows_rounding x) rest.
Proof.
  unfold corner_of. rewrite bind_call_derivatize. cbn [events fst].
  eexists. split; [reflexivity|].
  apply events_bind_Forall; [constructor|]. intros d1.
  rewrite bind_call_derivatize. cbn [events fst].
  constructor; [reflexivity|].
  repeat first
    [ apply events_bind_Forall; [|intros ?]
    | match goal with |- context [if ?b then _ else _] => destruct b end
    | solve [repeat constructor] ].
Qed.

(** C4. When the sweep has gone through, [calc_L_curve] takes [log10] of
    the residual norms and of the roughness norms and hands each logged
    sequence to [round_to_sigfig] with the precision 6; only then, and from
    what the rounding returned, is the first derivative taken; whatever is
    computed afterwards is a derivative with respect to the rounded
    log-residual (or the plot): nothing is rounded or inverted again. *)
Theorem calc_L_curve_rounds_first (ax : option string)
    (nOm om_max om_min : pyval F) (plot : bool) (mx mn : F) (n : Z)
    (es x y : list F) :
  float_value om_max = Some mx -> float_value om_min = Some mn ->
  int_value nOm = Some n ->
  model.np_linspace (f_log10 mn) (f_log10 mx) n = Ok es ->
  let om_vec := map (f_pow (f_of_Z 10)) es in
  let res_vec := map (residual_of self timedata) om_vec in
  let rgh_vec := map (roughness_of self timedata) om_vec in
  inverts self timedata om_vec ->
  model.round_to_sigfig (map f_log10 res_vec) 6 = Ok x ->
  model.round_to_sigfig (map f_log10 rgh_vec) 6 = Ok y ->
  exists rest,
    events (model.calc_L_curve self timedata ax nOm om_max om_min plot)
    = (map (@Called_calc_f F) om_vec
       ++ Called_round_to_sigfig (map f_log10 res_vec) 6
       :: Called_round_to_sigfig (map f_log10 rgh_vec) 6
       :: Called_derivatize y x
       :: rest)%list /\
    Forall (follows_rounding x) rest.
Proof.
  intros Hmx Hmn Hn Hes om_vec res_vec rgh_vec Hinv Hx Hy.
  rewrite (calc_L_curve_checked ax _ _ _ plot Hmx Hmn Hn).
  rewrite Hes, bind_lift_ok. cbv zeta. fold om_vec.
  rewrite (sweep_ok [] [] Hinv). cbn [app].
  destruct (corner_of_events om_vec x y ax plot) as (rest & Hrest & Hfol).
  exists rest. split; [|exact Hfol].
  match goal with
  | |- events (bind (?log, Ok ?v) ?f) = _ =>
      destruct (@events_bind_ok F _ _ (log, Ok v) f v eq_refl) as [-> _]
  end.
  cbn [events fst snd]. f_equal.
  unfold after_sweep. cbv zeta. fold res_vec rgh_vec.
  rewrite bind_call_round_to_sigfig, Hx, bind_lift_ok.
  rewrite bind_call_round_to_sigfig, Hy, bind_lift_ok.
  cbn [events fst]. now rewrite <- Hrest.
Qed.

(** *** The corner *)

Lemma curvature_kappas (dydx dy2d2x : list F) :
  List.length dydx = List.length dy2d2x ->
  model.curvature dydx dy2d2x = Ok (kappas dydx dy2d2x).
Proof.
  intros Hlen. unfold model.curvature, model.broadcast, kappas.
  rewrite !length_map, <- Hlen, Nat.eqb_refl. f_equal.
  revert dy2d2x Hlen. induction dydx as [|a d1 IH]; intros [|b d2] Hlen;
    try discriminate; [reflexivity|].
  simpl. f_equal. apply IH. now injection Hlen.
Qed.

Lemma kappas_length (dydx dy2d2x : list F) :
  List.length dydx = List.length dy2d2x ->
  List.length (kappas dydx dy2d2x) = List.length dydx.
Proof.
  intros H. unfold kappas. rewrite length_map, length_combine, <- H.
  apply Nat.min_id.
Qed.

(** The curvature at sweep point [j] is [kappa] of the two derivatives
    there. *)
Lemma kappas_nth (dydx dy2d2x : list F) (j : nat) (a b : F) :
  nth_error dydx j = Some a -> nth_error dy2d2x j = Some b ->
  nth_error (kappas dydx dy2d2x) j = Some (kappa a b).
Proof.
  revert dy2d2x j. induction dydx as [|a' d1 IH]; intros [|b' d2] [|j];
    simpl; try discriminate.
  - now intros [= ->] [= ->].
  - apply IH.
Qed.

(** The scan of [np.argmax], [done] being the entries scanned so far:
    when [best], at [ibest], is the first maximum of [done], the scan
    returns the first maximum of the whole vector. *)
Lemma argmax_from_first_max (Hord : leb_order) (v done : list F) (best : F)
    (ibest : nat) :
  nan_free (done ++ v) ->
  nth_error done ibest = Some best ->
  (forall j x, nth_error done j = Some x -> f_leb x best = true) ->
  (forall j x, (j < ibest)%nat -> nth_error done j = Some x -> f_leb best x = false) ->
  first_max_index (done ++ v)
    (model.argmax_from v (List.length done) best ibest).
Proof.
  revert done best ibest.
  induction v as [|x v IH]; intros done best ibest Hnan Hbest Hmax Hfirst.
  - simpl. rewrite app_nil_r. exists best. auto.
  - assert (Hib : (ibest < List.length done)%nat)
      by (apply nth_error_Some; congruence).
    assert (Hnb : f_isnan best = false).
    { apply Hnan, in_or_app. left. eapply nth_error_In; eauto. }
    assert (Hnx : f_isnan x = false).
    { apply Hnan, in_or_app. right. now left. }
    cbn [model.argmax_from]. rewrite Hnb.
    replace (done ++ x :: v)%list with ((done ++ [x]) ++ v)%list in *
      by (now rewrite <- app_assoc).
    replace (S (List.length done)) with (List.length (done ++ [x])%list)
      by (rewrite length_app; simpl; lia).
    destruct (f_leb x best) eqn:Ex; cbn [negb].
    + apply IH; try assumption.
      * rewrite nth_error_app1 by assumption. exact Hbest.
      * intros j xj Hj.
        destruct (Nat.lt_ge_cases j (List.length done)) as [Hlt|Hge].
        -- rewrite nth_error_app1 in Hj by assumption. eauto.
        -- rewrite nth_error_app2 in Hj by assumption.
           destruct (j - List.length done)%nat as [|[|?]]; simpl in Hj;
             try discriminate.
           now injection Hj as <-.
      * intros j xj Hj Hxj.
        rewrite nth_error_app1 in Hxj by lia. eauto.
    + assert (Hbx : f_leb best x = true).
      { destruct (leb_total Hord _ _ Hnx Hnb) as [H|H]; [congruence | exact H]. }
      assert (Hxx : f_leb x x = true).
      { destruct (leb_total Hord _ _ Hnx Hnx); assumption. }
      apply IH; try assumption.
      * rewrite nth_error_app2 by lia. now rewrite Nat.sub_diag.
      * intros j xj Hj.
        destruct (Nat.lt_ge_cases j (List.length done)) as [Hlt|Hge].
        -- rewrite nth_error_app1 in Hj by assumption.
           eapply (leb_trans Hord); eauto.
        -- rewrite nth_error_app2 in Hj by assumption.
           destruct (j - List.length done)%nat as [|[|?]]; simpl in Hj;
             try discriminate.
           now injection Hj as <-.
      * intros j xj Hj Hxj.
        rewrite nth_error_app1 in Hxj by assumption.
        destruct (f_leb x xj) eqn:E; [|reflexivity].
        assert (f_leb x best = true)
          by (eapply (leb_trans Hord); eauto).
        congruence.
Qed.

(** [np.argmax] returns the first index of the maximum. *)
Lemma np_argmax_first_max (Hord : leb_order) (k : list F) :
  k <> [] -> nan_free k ->
  exists i, model.np_argmax k = Ok i /\ first_max_index k i.
Proof.
  intros Hne Hnan. destruct k as [|x v]; [contradiction|].
  eexists. split; [reflexivity|].
  assert (Hx : f_isnan x = false) by (apply Hnan; now left).
  apply (argmax_from_first_max Hord v [x] (best:=x) (ibest:=0)).
  - exact Hnan.
  - reflexivity.
  - intros [|[|j]] xj; simpl; try discriminate. intros [= <-].
    destruct (leb_total Hord _ _ Hx Hx); assumption.
  - intros j xj Hj. lia.
Qed.

Lemma getitem_in_range (v : list F) (i : nat) :
  (i < List.length v)%nat -> exists x, model.getitem v i = Ok x /\ nth_error v i = Some x.
Proof.
  intros Hi. unfold model.getitem.
  destruct (nth_error v i) as [x|] eqn:E; [eauto|].
  apply nth_error_None in E. lia.
Qed.

(** The corner, from the rounded logarithms on. *)
Lemma corner_of_first_max (Hord : leb_order) (om_vec x y d1 d2 : list F)
    (ax : option string) (plot : bool) :
  om_vec <> [] ->
  model.derivatize y x = Ok d1 -> model.derivatize d1 x = Ok d2 ->
  List.length x = List.length om_vec -> List.length y = List.length om_vec ->
  List.length d1 = List.length om_vec -> List.length d2 = List.length om_vec ->
  nan_free (kappas d1 d2) ->
  exists i om_best r,
    outcome (corner_of om_vec x y ax plot) = Ok r /\
    model.om_best_of r = om_best /\
    nth_error om_vec i = Some om_best /\
    first_max_index (kappas d1 d2) i.
Proof.
  intros Hne Hd1 Hd2 Lx Ly L1 L2 Hnan.
  assert (L12 : List.length d1 = List.length d2) by congruence.
  assert (Lk := kappas_length _ _ L12).
  destruct (np_argmax_first_max Hord (k:=kappas d1 d2)) as (i & Hi & Hfirst).
  { intros E. rewrite E in Lk. simpl in Lk.
    destruct om_vec; [contradiction | simpl in L1; lia]. }
  { exact Hnan. }
  assert (Hlt : (i < List.length om_vec)%nat).
  { destruct Hfirst as (ki & Hki & _).
    rewrite <- L1, <- Lk. apply nth_error_Some. congruence. }
  destruct (getitem_in_range om_vec Hlt) as (om & Hom & Hnth).
  destruct (getitem_in_range x (i:=i)) as (xi & Hxi & _); [lia|].
  destruct (getitem_in_range y (i:=i)) as (yi & Hyi & _); [lia|].
  exists i, om.
  unfold corner_of.
  rewrite bind_call_derivatize, Hd1, bind_lift_ok.
  rewrite bind_call_derivatize, Hd2, bind_lift_ok.
  rewrite (curvature_kappas _ _ L12), bind_lift_ok, Hi, bind_lift_ok, Hom, bind_lift_ok.
  destruct plot.
  - rewrite bind_emit, Hxi, bind_lift_ok, Hyi, bind_lift_ok.
    eexists. cbn [outcome snd ret]. repeat split; eauto.
  - eexists. cbn [outcome snd ret]. repeat split; eauto.
Qed.

(** C3, as the code has it.  For a sweep that goes through (the
    arguments pass the checks, every inversion returns, the helpers return
    one value per sweep point) and in which no curvature is a NaN,
    [calc_L_curve] returns the omega at the
    first index at which the curvature is largest, the curvature at sweep
    point [j] being [|d2[j]| / (1 + d1[j] ** 2) ** 1.5] with
    [d1 = derivatize(y, x)] and [d2 = derivatize(d1, x)], for [y] the
    rounded log-roughness and [x] the rounded log-residual. *)
Theorem calc_L_curve_first_max_curvature (Hord : leb_order) (ax : option string)
    (nOm om_max om_min : pyval F) (plot : bool) (mx mn : F) (n : Z)
    (es x y d1 d2 : list F) :
  float_value om_max = Some mx -> float_value om_min = Some mn ->
  int_value nOm = Some n -> 0 < n ->
  model.np_linspace (f_log10 mn) (f_log10 mx) n = Ok es ->
  let om_vec := map (f_pow (f_of_Z 10)) es in
  inverts self timedata om_vec ->
  model.round_to_sigfig
    (map f_log10 (map (residual_of self timedata) om_vec)) 6 = Ok x ->
  model.round_to_sigfig
    (map f_log10 (map (roughness_of self timedata) om_vec)) 6 = Ok y ->
  model.derivatize y x = Ok d1 -> model.derivatize d1 x = Ok d2 ->
  List.length x = List.length om_vec -> List.length y = List.length om_vec ->
  List.length d1 = List.length om_vec -> List.length d2 = List.length om_vec ->
  nan_free (kappas d1 d2) ->
  exists i om_best r,
    outcome (model.calc_L_curve self timedata ax nOm om_max om_min plot) = Ok r /\
    model.om_best_of r = om_best /\
    nth_error om_vec i = Some om_best /\
    first_max_index (kappas d1 d2) i /\
    List.length (kappas d1 d2) = List.length om_vec /\
    (forall j a b, nth_error d1 j = Some a -> nth_error d2 j = Some b ->
       nth_error (kappas d1 d2) j = Some (kappa a b)).
Proof.
  intros Hmx Hmn Hn Hpos Hes om_vec Hinv Hx Hy Hd1 Hd2 Lx Ly L1 L2 Hnan.
  assert (Hne : om_vec <> []).
  { destruct (np_linspace_length (f_log10 mn) (f_log10 mx) (n:=n)) as (es' & Hes' & Hlen);
      [lia|].
    rewrite Hes in Hes'. injection Hes' as <-.
    intros E. apply (f_equal (@List.length F)) in E.
    subst om_vec. rewrite length_map, Hlen in E. simpl in E. lia. }
  destruct (@corner_of_first_max Hord om_vec x y d1 d2 ax plot Hne Hd1 Hd2 Lx Ly L1 L2 Hnan)
    as (i & om & r & Hr & Hom & Hnth & Hfirst).
  exists i, om, r.
  split; [|repeat split; try assumption].
  - rewrite (calc_L_curve_checked ax _ _ _ plot Hmx Hmn Hn).
    rewrite Hes, bind_lift_ok. cbv zeta. fold om_vec.
    rewrite (sweep_ok [] [] Hinv). cbn [app].
    match goal with
    | |- outcome (bind (?log, Ok ?v) ?f) = _ =>
        destruct (@events_bind_ok F _ _ (log, Ok v) f v eq_refl) as [_ ->]
    end.
    cbn [fst snd]. unfold after_sweep. cbv zeta.
    rewrite bind_call_round_to_sigfig, Hx, bind_lift_ok.
    rewrite bind_call_round_to_sigfig, Hy, bind_lift_ok.
    exact Hr.
  - rewrite kappas_length by congruence. exact L1.
  - intros j a b. apply kappas_nth.
Qed.

End LCurve.

(** ** [calc_L_curve], run on rationals *)

Section LCurveRun.

Import QNum.

Lemma plain_inverts (self : model.Model Q) (timedata : model.pyobject Q)
    (om_vec : list Q) :
  inverts (IM:=plain_imports) self timedata om_vec.
Proof.
  intros w _. simpl. unfold corner_inverter.
  destruct (Qle_bool w 1); reflexivity.
Defined.

(** C2 fails as written: with [om_min = -1] and the other arguments at
    their defaults, nothing is refused and the inverter is called. *)
Lemma calc_L_curve_accepts_negative_om_min :
  exists w rest,
    events (model.calc_L_curve (IM:=plain_imports) a_model a_thermogram None
              (PyInt 150) (PyFloat 100%Q) (PyInt (-1)) false)
    = Called_calc_f w :: rest.
Proof.
  apply (calc_L_curve_reaches_inverter (IM:=plain_imports) a_model a_thermogram
           None (PyInt 150) (PyFloat 100%Q) (PyInt (-1)) false (n:=150));
    reflexivity.
Qed.

Lemma calc_L_curve_type_checks_witness :
  model.calc_L_curve (IM:=plain_imports) a_model a_thermogram None
    (PyFloat (3 # 2)%Q) (PyFloat 100%Q) (PyFloat (1 # 1000)%Q) false
  = ([], Raise (TypeError "nOm must be int")).
Proof.
  apply (calc_L_curve_type_checks (IM:=plain_imports) a_model a_thermogram None
           (PyFloat (3 # 2)%Q) (PyFloat 100%Q) (PyFloat (1 # 1000)%Q) false);
    reflexivity.
Defined.

Lemma calc_L_curve_log_spaced_witness :
  calc_f_calls
    (events (model.calc_L_curve (IM:=plain_imports) a_model a_thermogram None
               (PyInt 6) (PyInt 100) (PyFloat (1 # 1000)%Q) false))
  = [1 # 1000; 1 # 100; 1 # 10; 1; 10; 100]%Q.
Proof.
  edestruct (calc_L_curve_log_spaced (IM:=plain_imports) a_model a_thermogram None
               (PyInt 6) (PyInt 100) (PyFloat (1 # 1000)%Q) false)
    as (es & Hes & _ & _ & _ & _ & Hall & _).
  - reflexivity.
  - reflexivity.
  - reflexivity.
  - reflexivity.
  - injection Hes as <-.
    apply Hall, plain_inverts.
Defined.

Lemma calc_L_curve_propagates_witness :
  model.calc_L_curve (IM:=singular_imports) a_model a_thermogram None
    (PyInt 6) (PyInt 100) (PyFloat (1 # 1000)%Q) false
  = (map (@Called_calc_f Q) [1 # 1000; 1 # 100; 1 # 10; 1]%Q,
     Raise (Exn "LinAlgError" "Singular matrix")).
Proof.
  eapply (@calc_L_curve_propagates Q _ singular_imports a_model a_thermogram None
            (PyInt 6) (PyInt 100) (PyFloat (1 # 1000)%Q) false
            100%Q (1 # 1000)%Q 6 _
            [1 # 1000; 1 # 100; 1 # 10]%Q [10; 100]%Q 1%Q).
  - reflexivity.
  - reflexivity.
  - reflexivity.
  - reflexivity.
  - reflexivity.
  - intros w Hw. simpl in Hw.
    destruct Hw as [<-|[<-|[<-|[]]]]; reflexivity.
  - reflexivity.
Defined.

Lemma calc_L_curve_rounds_first_witness :
  exists x y rest,
    events (model.calc_L_curve (IM:=plain_imports) a_model a_thermogram None
              (PyInt 6) (PyInt 100) (PyFloat (1 # 1000)%Q) false)
    = (map (@Called_calc_f Q) [1 # 1000; 1 # 100; 1 # 10; 1; 10; 100]%Q
       ++ Called_round_to_sigfig [1; 1; 1; 1; 4; 7]%Q 6
       :: Called_round_to_sigfig [9; 7; 5; 3; 3; 3]%Q 6
       :: Called_derivatize y x
       :: rest)%list /\
    Forall (follows_rounding x) rest.
Proof.
  edestruct (@calc_L_curve_rounds_first Q _ plain_imports a_model a_thermogram None
               (PyInt 6) (PyInt 100) (PyFloat (1 # 1000)%Q) false)
    as (rest & Hev & Hfol).
  - reflexivity.
  - reflexivity.
  - reflexivity.
  - vm_compute; reflexivity.
  - apply plain_inverts.
  - vm_compute; reflexivity.
  - vm_compute; reflexivity.
  - eexists _, _, rest. split; [exact Hev | exact Hfol].
Defined.

End LCurveRun.

(** * Further properties *)

(** ** [_assert_lent]: what it returns *)

Section AssertLentMore.

Context {F : Type} {NF : Float64 F}.

Import timedata_helper.

Lemma assert_lent_shape (array nt r : pyval F) :
  _assert_lent array nt = Ok r ->
  exists n a,
    int_value nt = Some (Z.of_nat n) /\ r = PyArray a /\ List.length a = n.
Proof.
  unfold _assert_lent.
  destruct (int_value nt) as [z|]; [|discriminate].
  destruct (float_value array) as [x|] eqn:Hx.
  - unfold scalar_times_ones.
    destruct (Z.ltb_spec z 0) as [H|H]; [discriminate|].
    intros [= <-]. exists (Z.to_nat z). eexists.
    split; [now rewrite Z2Nat.id | split; [reflexivity|]].
    unfold np_ones. now rewrite !length_map, repeat_length.
  - destruct array as [| | | | |l|l]; try discriminate;
      (destruct (Z.eqb_spec (Z.of_nat (List.length l)) z) as [E|E];
       simpl; [|discriminate]);
      intros [= <-]; exists (List.length l); eexists;
      (split; [now rewrite E | split; [reflexivity|]]);
      rewrite ?length_map; reflexivity.
Qed.

Lemma assert_lent_again (array nt r : pyval F) :
  _assert_lent array nt = Ok r -> _assert_lent r nt = Ok r.
Proof.
  intros H.
  destruct (assert_lent_shape _ _ H) as (n & a & Hn & -> & Ha).
  unfold _assert_lent. rewrite Hn. simpl float_value. cbv iota.
  rewrite Ha, Z.eqb_refl. reflexivity.
Qed.

(** X1. Whatever [_assert_lent(array, nt)] is given, when it returns, [nt]
    is a non-negative int and the result is an [ndarray] of length [nt]. *)
Theorem assert_lent_returns_length (array nt r : pyval F) :
  _assert_lent array nt = Ok r ->
  exists n a,
    int_value nt = Some (Z.of_nat n) /\ r = PyArray a /\ List.length a = n.
Proof.
  unfold _assert_lent.
  destruct (int_value nt) as [z|]; [|discriminate].
  destruct (float_value array) as [x|] eqn:Hx.
  - (* a scalar: z copies of it *)
    unfold scalar_times_ones.
    destruct (Z.ltb_spec z 0) as [H|H]; [discriminate|].
    intros [= <-]. exists (Z.to_nat z). eexists.
    split; [now rewrite Z2Nat.id | split; [reflexivity|]].
    unfold np_ones. now rewrite !length_map, repeat_length.
  - (* a list or an array: its length has been compared with z *)
    destruct array as [| | | | |l|l]; try discriminate;
      (destruct (Z.eqb_spec (Z.of_nat (List.length l)) z) as [E|E];
       simpl; [|discriminate]);
      intros [= <-]; exists (List.length l); eexists;
      (split; [now rewrite E | split; [reflexivity|]]);
      rewrite ?length_map; reflexivity.
Qed.

(** X2. [_assert_lent] changes nothing in what it has returned: applied
    to its own result, with the same [nt], it returns that result. *)
Theorem assert_lent_idempotent (array nt r : pyval F) :
  _assert_lent array nt = Ok r -> _assert_lent r nt = Ok r.
Proof.
  intros H.
  destruct (assert_lent_shape _ _ H) as (n & a & Hn & -> & Ha).
  (* the result is an array, of the length asked for *)
  unfold _assert_lent. rewrite Hn.
  change (float_value (PyArray a)) with (@None F). cbv iota.
  rewrite Ha, Z.eqb_refl. reflexivity.
Qed.

End AssertLentMore.

Section AssertLentMoreRun.

Import QNum.

Lemma assert_lent_returns_length_witness :
  exists n a,
    int_value (F:=Q) (PyInt 3) = Some (Z.of_nat n) /\
    float_array (map (f_mul 373%Q) (np_ones 3)) = PyArray a /\
    List.length a = n.
Proof.
  apply (assert_lent_returns_length (PyInt 373) (PyInt 3)). reflexivity.
Defined.

Lemma assert_lent_idempotent_witness :
  timedata_helper._assert_lent
    (PyArray (F:=Q) [PyInt 1; PyInt 2]) (PyInt 2)
  = Ok (PyArray [PyInt 1; PyInt 2]).
Proof.
  apply (assert_lent_idempotent (PyList [PyInt 1; PyInt 2]) (PyInt 2)).
  reflexivity.
Defined.

End AssertLentMoreRun.

(** ** [Model.__init__] and [Daem.__init__]: what is built *)

Section ModelBuilt.

Context {F : Type} {NF : Float64 F} {IM : model.Imports F}.

Hypothesis assert_len_is :
  forall a n, model.assert_len a n = timedata_helper._assert_lent a n.

Lemma Model_init_unfold (A : pyval F) (mt : string) (t T : pyval F) (m : model.Model F) :
  model.Model__init__ A mt t T = Ok m ->
  exists nt t' T' A',
    py_len t = Ok nt /\
    timedata_helper._assert_lent t (PyInt (Z.of_nat nt)) = Ok t' /\
    timedata_helper._assert_lent T (PyInt (Z.of_nat nt)) = Ok T' /\
    timedata_helper._assert_lent A (PyInt (Z.of_nat nt)) = Ok A' /\
    m = {| model.self_A := A'; model.self_model_type := mt; model.self_nt := nt;
           model.self_t := t'; model.self_T := T' |}.
Proof.
  unfold model.Model__init__.
  destruct (py_len t) as [nt|e]; [|discriminate]. cbn [rbind].
  rewrite !assert_len_is.
  destruct (timedata_helper._assert_lent t _) as [t'|] eqn:Et; [|discriminate].
  cbn [rbind].
  destruct (timedata_helper._assert_lent T _) as [T'|] eqn:ET; [|discriminate].
  cbn [rbind].
  destruct (timedata_helper._assert_lent A _) as [A'|] eqn:EA; [|discriminate].
  cbn [rbind]. intros [= <-]. exists nt, t', T', A'. auto.
Qed.

(** X3. A [Model] can be built again from what it stores: [Model.__init__]
    given the [A], [model_type], [t] and [T] of a model it has built
    returns that same model. *)
Theorem Model_init_rebuild (A : pyval F) (mt : string) (t T : pyval F)
    (m : model.Model F) :
  model.Model__init__ A mt t T = Ok m ->
  model.Model__init__ (model.self_A m) (model.self_model_type m)
    (model.self_t m) (model.self_T m) = Ok m.
Proof.
  intros H.
  destruct (Model_init_unfold _ _ _ _ H) as (nt & t' & T' & A' & Hnt & Ht & HT & HA & ->).
  cbn [model.self_A model.self_model_type model.self_t model.self_T].
  unfold model.Model__init__.
  assert (Hlen : py_len t' = Ok nt) by (eapply assert_lent_len; eassumption).
  assert (Ht2 := assert_lent_again _ _ Ht).
  assert (HT2 := assert_lent_again _ _ HT).
  assert (HA2 := assert_lent_again _ _ HA).
  rewrite Hlen. cbn [rbind]. rewrite !assert_len_is.
  rewrite Ht2. cbn [rbind]. rewrite HT2. cbn [rbind]. rewrite HA2. reflexivity.
Qed.

End ModelBuilt.

Section DaemBuilt.

Context {F : Type} {NF : Float64 F} {IM : model.Imports F}.

Hypothesis assert_len_is :
  forall a n, model.assert_len a n = timedata_helper._assert_lent a n.

Lemma np_array_float_array (v : list F) : np_array (float_array v) = float_array v.
Proof. reflexivity. Qed.

Lemma float_array_like (v : list F) :
  array_like (float_array v) /\ py_len (float_array v) = Ok (List.length v).
Proof. split; [reflexivity|]. simpl. now rewrite length_map. Qed.

Lemma Model_init_arrays (A : pyval F) (mt : string) (t T : pyval F) (nt : nat) :
  array_like t -> py_len t = Ok nt ->
  array_like T -> py_len T = Ok nt ->
  array_like A -> py_len A = Ok nt ->
  model.Model__init__ A mt t T
  = Ok {| model.self_A := np_array A; model.self_model_type := mt;
          model.self_nt := nt; model.self_t := np_array t;
          model.self_T := np_array T |}.
Proof.
  intros Ht Hnt HT HTn HA HAn. unfold model.Model__init__.
  rewrite Hnt. cbn [rbind]. rewrite !assert_len_is.
  rewrite (assert_lent_array_ok Ht Hnt). cbn [rbind].
  rewrite (assert_lent_array_ok HT HTn). cbn [rbind].
  rewrite (assert_lent_array_ok HA HAn). reflexivity.
Qed.

Lemma Daem_init_arrays (Ea log10k0 t T A : pyval F) (nt nEa : nat) :
  array_like t -> py_len t = Ok nt ->
  array_like T -> py_len T = Ok nt ->
  array_like Ea -> py_len Ea = Ok nEa ->
  model._rpo_calc_A Ea log10k0 t T = Ok A ->
  array_like A -> py_len A = Ok nt ->
  model.Daem__init__ Ea log10k0 t T
  = ([], Ok {| model.daem_super :=
                 {| model.self_A := np_array A; model.self_model_type := "Daem";
                    model.self_nt := nt; model.self_t := np_array t;
                    model.self_T := np_array T |};
               model.self_log10k0 := log10k0;
               model.self_Ea := np_array Ea;
               model.self_nEa := nEa |}).
Proof.
  intros Ht Hnt HT HTn HE HEn HcA HA HAn.
  rewrite (Daem_init_array_T _ _ _ HT), HcA, bind_lift_ok.
  unfold model.LaplaceTransform__init__.
  rewrite (Model_init_arrays "Daem" Ht Hnt HT HTn HA HAn), bind_lift_ok.
  rewrite HEn, bind_lift_ok, assert_len_is.
  rewrite (assert_lent_array_ok HE HEn), bind_lift_ok.
  reflexivity.
Qed.

(** X4. Given arrays [t] and [T] of one length [nt], an array [Ea], and a
    transform matrix from [_rpo_calc_A] with [nt] rows, [Daem(Ea, log10k0, t,
    T)] is built without a warning; it stores the arrays as [ndarray]s,
    [log10k0] as given, [model_type = 'Daem'], [nt] and [nEa = len(Ea)]. *)
Theorem Daem_init_builds (Ea log10k0 t T A : pyval F) (nt nEa : nat) :
  array_like t -> py_len t = Ok nt ->
  array_like T -> py_len T = Ok nt ->
  array_like Ea -> py_len Ea = Ok nEa ->
  model._rpo_calc_A Ea log10k0 t T = Ok A ->
  array_like A -> py_len A = Ok nt ->
  model.Daem__init__ Ea log10k0 t T
  = ([], Ok {| model.daem_super :=
                 {| model.self_A := np_array A; model.self_model_type := "Daem";
                    model.self_nt := nt; model.self_t := np_array t;
                    model.self_T := np_array T |};
               model.self_log10k0 := log10k0;
               model.self_Ea := np_array Ea;
               model.self_nEa := nEa |}).
Proof.
  intros Ht Hnt HT HTn HE HEn HcA HA HAn.
  (* no warning for an array T; then the matrix *)
  rewrite (Daem_init_array_T _ _ _ HT), HcA, bind_lift_ok.
  (* the Model part *)
  unfold model.LaplaceTransform__init__.
  erewrite Model_init_arrays by eassumption. rewrite bind_lift_ok.
  (* the attributes of the Daem *)
  rewrite HEn, bind_lift_ok, assert_len_is.
  rewrite (assert_lent_array_ok HE HEn), bind_lift_ok.
  reflexivity.
Qed.


Lemma from_timedata_thermogram (timedata : model.pyobject F) (Ea_max Ea_min : F)
    (log10k0 : pyval F) (nEa : Z) (Ea : list F) (t T : pyval F) :
  model.isinstance timedata "RpoThermogram" = true ->
  model.np_linspace Ea_min Ea_max nEa = Ok Ea ->
  model.getattr timedata "t" = Ok t ->
  model.getattr timedata "T" = Ok T ->
  model.Daem_from_timedata timedata Ea_max Ea_min log10k0 nEa
  = model.Daem__init__ (float_array Ea) log10k0 t T.
Proof.
  intros Hc HEa Ht HT. unfold model.Daem_from_timedata.
  rewrite Hc. cbn [negb]. rewrite bind_ret_l, HEa, bind_lift_ok.
  rewrite Ht, bind_lift_ok, HT, bind_lift_ok. reflexivity.
Qed.

(** X6. [Daem.from_timedata] on an [RpoThermogram] whose [t] and [T] are
    arrays of one length [nt], with [nEa >= 0] and a matrix from
    [_rpo_calc_A] with [nt] rows, builds without a warning the [Daem] whose
    [Ea] is [np.linspace(Ea_min, Ea_max, nEa)], of [nEa] entries, and whose
    [t], [T] are those of the thermogram. *)
Theorem from_timedata_builds (timedata : model.pyobject F) (Ea_max Ea_min : F)
    (log10k0 : pyval F) (nEa : Z) (t T A : pyval F) (nt : nat) :
  model.isinstance timedata "RpoThermogram" = true ->
  0 <= nEa ->
  model.getattr timedata "t" = Ok t -> array_like t -> py_len t = Ok nt ->
  model.getattr timedata "T" = Ok T -> array_like T -> py_len T = Ok nt ->
  (forall Ea, model.np_linspace Ea_min Ea_max nEa = Ok Ea ->
     model._rpo_calc_A (float_array Ea) log10k0 t T = Ok A) ->
  array_like A -> py_len A = Ok nt ->
  exists Ea,
    model.np_linspace Ea_min Ea_max nEa = Ok Ea /\
    List.length Ea = Z.to_nat nEa /\
    model.Daem_from_timedata timedata Ea_max Ea_min log10k0 nEa
    = ([], Ok {| model.daem_super :=
                   {| model.self_A := np_array A; model.self_model_type := "Daem";
                      model.self_nt := nt; model.self_t := np_array t;
                      model.self_T := np_array T |};
                 model.self_log10k0 := log10k0;
                 model.self_Ea := float_array Ea;
                 model.self_nEa := Z.to_nat nEa |}).
Proof.
  intros Hc Hn Ht Hta Htn HT HTa HTn HcA HA HAn.
  destruct (np_linspace_length Ea_min Ea_max Hn) as (Ea & HEa & Hlen).
  exists Ea. split; [exact HEa | split; [exact Hlen|]].
  erewrite from_timedata_thermogram by eassumption.
  destruct (float_array_like Ea) as [HEl HEn]. rewrite Hlen in HEn.
  erewrite Daem_init_arrays by (try eassumption; now apply HcA).
  reflexivity.
Qed.

Lemma Daem_init_scalar_T_raises (Ea log10k0 t T : pyval F) :
  scalar T ->
  model.Daem__init__ Ea log10k0 t T = ([], Raise (NameError "warnings")).
Proof.
  unfold scalar, model.Daem__init__. intros ->.
  rewrite warnings_warn_NameError. reflexivity.
Qed.

(** X7. [Daem.from_timedata] on an [RpoThermogram] that is isothermal (its
    [T] is a scalar) ends with [NameError: name 'warnings' is not defined]:
    the warning its docstring announces cannot be issued. *)
Theorem from_timedata_isothermal (timedata : model.pyobject F) (Ea_max Ea_min : F)
    (log10k0 : pyval F) (nEa : Z) (t T : pyval F) :
  model.isinstance timedata "RpoThermogram" = true ->
  0 <= nEa ->
  model.getattr timedata "t" = Ok t ->
  model.getattr timedata "T" = Ok T -> scalar T ->
  model.Daem_from_timedata timedata Ea_max Ea_min log10k0 nEa
  = ([], Raise (NameError "warnings")).
Proof.
  intros Hc Hn Ht HT Hs.
  destruct (np_linspace_length Ea_min Ea_max Hn) as (Ea & HEa & _).
  erewrite from_timedata_thermogram by eassumption.
  now apply Daem_init_scalar_T_raises.
Qed.

(** X8. [Daem.from_ratedata] on an [EnergyComplex] with an array [Ea],
    with [nt >= 0] and a matrix from [_rpo_calc_A] with [nt] rows, builds
    without a warning the [Daem] whose [t] is [np.linspace(t0, tf, nt)] and
    whose [T] is the ramp [T0 + beta*t], entry by entry: the two have one
    length, so the length check of [T] cannot fail. *)
Theorem from_ratedata_builds (ratedata : model.pyobject F) (beta : F)
    (log10k0 : pyval F) (nt : Z) (t0 T0 tf : F) (Ea A : pyval F) (nEa : nat) :
  model.isinstance ratedata "EnergyComplex" = true ->
  0 <= nt ->
  model.getattr ratedata "Ea" = Ok Ea -> array_like Ea -> py_len Ea = Ok nEa ->
  (forall t, model.np_linspace t0 tf nt = Ok t ->
     model._rpo_calc_A Ea log10k0 (float_array t)
       (float_array (map (fun ti => f_add T0 (f_mul beta ti)) t)) = Ok A) ->
  array_like A -> py_len A = Ok (Z.to_nat nt) ->
  exists t,
    model.np_linspace t0 tf nt = Ok t /\
    List.length t = Z.to_nat nt /\
    model.Daem_from_ratedata ratedata beta log10k0 nt t0 T0 tf
    = ([], Ok {| model.daem_super :=
                   {| model.self_A := np_array A; model.self_model_type := "Daem";
                      model.self_nt := Z.to_nat nt;
                      model.self_t := float_array t;
                      model.self_T :=
                        float_array (map (fun ti => f_add T0 (f_mul beta ti)) t) |};
                 model.self_log10k0 := log10k0;
                 model.self_Ea := np_array Ea;
                 model.self_nEa := nEa |}).
Proof.
  intros Hc Hn HEa HEl HEn HcA HA HAn.
  destruct (np_linspace_length t0 tf Hn) as (t & Ht & Hlen).
  exists t. split; [exact Ht | split; [exact Hlen|]].
  unfold model.Daem_from_ratedata. rewrite Hc. cbn [negb].
  rewrite HEa, bind_lift_ok, Ht, bind_lift_ok. cbv zeta.
  destruct (float_array_like t) as [Htl Htn]. rewrite Hlen in Htn.
  destruct (float_array_like (map (fun ti => f_add T0 (f_mul beta ti)) t))
    as [HTl HTn].
  rewrite length_map, Hlen in HTn.
  erewrite Daem_init_arrays by (try eassumption; now apply HcA).
  reflexivity.
Qed.

End DaemBuilt.

(** ** [_derivatize]: lengths and errors *)

Section DerivatizeMore.

Context {F : Type} {NF : Float64 F}.

Import timedata_helper.

Lemma np_gradient_vector (x : pyval F) (dd : list F) :
  isinstance_list_ndarray x = true -> np_gradient x = Ok dd ->
  exists v, as_vector x = Some v /\ dd = gradient v /\
            (2 <= List.length v)%nat /\ py_len x = Ok (List.length v).
Proof.
  destruct x as [| | | | |l|l]; simpl; try discriminate; intros _;
    (destruct (scalars l) as [v|] eqn:Hv; [|discriminate]);
    (destruct (Nat.ltb_spec (List.length v) 2); [discriminate|]);
    intros [= <-]; exists v;
    (split; [reflexivity|]); (split; [reflexivity|]); (split; [assumption|]);
    now rewrite (scalars_length _ Hv).
Qed.

Lemma np_gradient_short (x : pyval F) (v : list F) :
  as_vector x = Some v -> (List.length v < 2)%nat ->
  np_gradient x = Raise gradient_too_small.
Proof.
  destruct x as [| | | | |l|l]; simpl; try discriminate; intros -> Hlen;
    (destruct (Nat.ltb_spec (List.length v) 2); [reflexivity | lia]).
Qed.

Lemma quotient_length (dn dd : list F) :
  List.length dn = List.length dd -> List.length (quotient dn dd) = List.length dd.
Proof.
  intros H. unfold quotient. rewrite length_map, length_combine, H.
  apply Nat.min_id.
Qed.

(** X9. Whenever [_derivatize(num, denom)] returns, [denom] has two
    entries at least and the result has as many entries as [denom]. *)
Theorem derivatize_result_length (num denom r : pyval F) :
  _derivatize num denom = Ok r ->
  exists n, py_len denom = Ok n /\ py_len r = Ok n /\ (2 <= n)%nat.
Proof.
  unfold _derivatize.
  destruct (negb (isinstance_int_float num || isinstance_list_ndarray num));
    [discriminate|].
  destruct (isinstance_list_ndarray denom) eqn:Hd; cbn [negb]; [|discriminate].
  destruct (match np_gradient num with
            | Ok dn => Ok dn
            | Raise e => if is_ValueError e
                         then rbind (py_len denom) (fun n => Ok (np_zeros n))
                         else Raise e
            end) as [dn|e]; [|discriminate].
  cbn [rbind].
  destruct (np_gradient denom) as [dd|e] eqn:Hdd; [|discriminate]. cbn [rbind].
  destruct (np_gradient_vector _ Hd Hdd) as (v & Hv & -> & H2 & Hlen).
  destruct (Nat.eqb_spec (List.length dn) (List.length (gradient v))) as [E|E];
    cbn [negb]; [|discriminate].
  rewrite Hlen. intros Hr.
  exists (List.length v). split; [reflexivity|]. split; [|exact H2].
  destruct (bool_le_0 (py_any (gradient v))); cbn [rbind] in Hr;
    injection Hr as <-; simpl.
  - unfold np_zeros. now rewrite length_map, repeat_length.
  - rewrite length_map. fold (quotient dn (gradient v)).
    rewrite (quotient_length _ _ E). now rewrite gradient_length.
Qed.

(** X10. For a scalar [num], [_derivatize] never returns the zeros its
    docstring announces: the gradient of a scalar is empty, and with a
    vector [denom] of two entries or more the call ends with
    [ValueError('num and denom arrays must have same length')]. *)
Theorem derivatize_scalar_num_raises (num denom : pyval F) :
  scalar num ->
  (exists e, _derivatize num denom = Raise e) /\
  (forall d, as_vector denom = Some d -> (2 <= List.length d)%nat ->
     _derivatize num denom
     = Raise (ValueError "num and denom arrays must have same length")).
Proof.
  intros Hs. unfold scalar in Hs.
  assert (Hg : np_gradient num = Ok []) by (destruct num; try discriminate; reflexivity).
  unfold _derivatize. rewrite Hs, Hg. cbn [orb negb rbind]. split.
  - destruct (isinstance_list_ndarray denom) eqn:Hd; cbn [negb];
      [|eexists; reflexivity].
    destruct (np_gradient denom) as [dd|e] eqn:Hdd; cbn [rbind];
      [|eexists; reflexivity].
    destruct (np_gradient_vector _ Hd Hdd) as (v & _ & -> & H2 & _).
    rewrite gradient_length.
    destruct v as [|? [|? ?]]; simpl in H2; try lia.
    eexists. reflexivity.
  - intros d Hd H2.
    destruct (as_vector_array_like _ Hd) as (Ad & _ & Gd).
    unfold array_like in Ad. rewrite Ad, (Gd H2). cbn [negb rbind].
    rewrite gradient_length.
    destruct d as [|? [|? ?]]; simpl in H2; try lia.
    reflexivity.
Qed.

(** X11. A [num] too short for a gradient (fewer than two entries) does
    not fail: the [ValueError] of [np.gradient] is caught, zeros of the
    length of [denom] stand for the gradient of [num], and no length error
    is raised although [num] and [denom] differ in length. *)
Theorem derivatize_short_num (num denom : pyval F) (n d : list F) :
  as_vector num = Some n -> (List.length n < 2)%nat ->
  as_vector denom = Some d -> (2 <= List.length d)%nat ->
  _derivatize num denom
  = Ok (float_array
          (if py_any (gradient d)
           then quotient (np_zeros (List.length d)) (gradient d)
           else np_zeros (List.length d))).
Proof.
  intros Hn Hshort Hd H2.
  destruct (as_vector_array_like _ Hn) as (An & _ & _).
  destruct (as_vector_array_like _ Hd) as (Ad & Ld & Gd).
  unfold array_like in An, Ad.
  unfold _derivatize. rewrite An, Ad, orb_true_r. cbn [negb].
  rewrite (np_gradient_short _ Hn Hshort).
  change (is_ValueError gradient_too_small) with true. cbv iota.
  rewrite Ld. cbn [rbind]. rewrite (Gd H2). cbn [rbind].
  unfold np_zeros at 1. rewrite repeat_length, gradient_length, Nat.eqb_refl.
  cbn [negb]. rewrite guard_is_not_any.
  destruct (py_any (gradient d)); reflexivity.
Qed.

(** X12. Two vectors of two entries or more and of different lengths are
    refused with [ValueError('num and denom arrays must have same length')];
    a [denom] of fewer than two entries is refused with the [ValueError] of
    [np.gradient], whatever vector [num] is. *)
Theorem derivatize_length_errors (num denom : pyval F) (n d : list F) :
  as_vector num = Some n -> as_vector denom = Some d ->
  ((2 <= List.length n)%nat -> (2 <= List.length d)%nat ->
   List.length n <> List.length d ->
   _derivatize num denom
   = Raise (ValueError "num and denom arrays must have same length")) /\
  ((List.length d < 2)%nat ->
   _derivatize num denom = Raise gradient_too_small).
Proof.
  intros Hn Hd.
  destruct (as_vector_array_like _ Hn) as (An & _ & Gn).
  destruct (as_vector_array_like _ Hd) as (Ad & Ld & Gd).
  unfold array_like in An, Ad.
  unfold _derivatize. rewrite An, Ad, orb_true_r. cbn [negb]. split.
  - intros H2n H2d Hne. rewrite (Gn H2n), (Gd H2d). cbn [rbind].
    rewrite !gradient_length.
    destruct (Nat.eqb_spec (List.length n) (List.length d)); [contradiction|].
    reflexivity.
  - intros Hshort. rewrite (np_gradient_short _ Hd Hshort).
    destruct (Nat.lt_ge_cases (List.length n) 2) as [Hn2|Hn2].
    + rewrite (np_gradient_short _ Hn Hn2).
      change (is_ValueError gradient_too_small) with true. cbv iota.
      rewrite Ld. reflexivity.
    + rewrite (Gn Hn2). reflexivity.
Qed.

End DerivatizeMore.

(** ** [_rpo_extract_tg]: what passes, and what is handed on *)

Section ExtractTgMore.

Context {F : Type} {NF : Float64 F}.

Import timedata_helper.

Lemma not_in_columns_true (name : string) (df : DataFrame (F:=F)) :
  ~ In name (map fst (columns df)) -> not_in_columns name df = true.
Proof.
  intros H. unfold not_in_columns. apply negb_true_iff.
  destruct (existsb _ _) eqn:E; [|reflexivity].
  apply existsb_exists in E as (c & Hc & Heq).
  apply String.eqb_eq in Heq. subst c. contradiction.
Qed.

Lemma column_present (name : string) (df : DataFrame (F:=F)) :
  In name (map fst (columns df)) ->
  exists v, column df name = Ok v /\ In (name, v) (columns df).
Proof.
  intros H. unfold column.
  destruct (find _ (columns df)) as [[k v]|] eqn:E.
  - apply find_some in E as [Hin Heq]. simpl in Heq.
    apply String.eqb_eq in Heq. subst k. eauto.
  - apply in_map_iff in H as ([k v] & Hk & Hin). simpl in Hk. subst k.
    apply (find_none _ _ E) in Hin. simpl in Hin.
    now rewrite String.eqb_refl in Hin.
Qed.

(** X13. The checks of [_rpo_extract_tg] on a frame look at the column
    ["temp"] and at the kind of the index, in this order, and at nothing
    else: without ["temp"] the frame is refused with the [ValueError]
    whatever its index is; with ["temp"] and another index than a
    [DatetimeIndex], with the [TypeError]; otherwise it passes, its column
    ["CO2_scaled"] playing no part. *)
Theorem rpo_extract_tg_checks_cases (env : extract_env (F:=F)) (df : DataFrame (F:=F)) :
  (~ In "temp" (map fst (columns df)) ->
   _rpo_extract_tg_checks env (FileFrame df)
   = Raise (ValueError missing_columns_msg)) /\
  (In "temp" (map fst (columns df)) -> df_index df = OtherIndex ->
   _rpo_extract_tg_checks env (FileFrame df)
   = Raise (TypeError "file index must be pd.DatetimeIndex instance")) /\
  (In "temp" (map fst (columns df)) ->
   forall stamps, df_index df = DatetimeIndex stamps ->
   _rpo_extract_tg_checks env (FileFrame df) = Ok df).
Proof.
  unfold _rpo_extract_tg_checks. cbn [rbind].
  rewrite column_test_is_temp_only. repeat split.
  - intros H. now rewrite (not_in_columns_true _ _ H).
  - intros H Hi. now rewrite (not_in_columns_false _ _ H), Hi.
  - intros H stamps Hi. now rewrite (not_in_columns_false _ _ H), Hi.
Qed.

(** X14. A frame, given as such or as the path it is read from, with the
    columns ["CO2_scaled"] and ["temp"] and a [DatetimeIndex] that is not
    empty, reaches the numerical part with those two columns and with, for
    every time stamp, the seconds part of its distance to the first stamp:
    [0] for the first, a number of [[0, 86400)] for all, the elapsed seconds
    themselves only within the first day. *)
Theorem rpo_extract_tg_hands_on (env : extract_env (F:=F)) (file : file_arg (F:=F))
    (df : DataFrame (F:=F)) (s0 : Z) (stamps : list Z) (nt err : pyval F) :
  file = FileFrame df \/
  (exists path, file = FileStr path /\ read_csv env path = Ok df) ->
  df_index df = DatetimeIndex (s0 :: stamps) ->
  In "CO2_scaled" (map fst (columns df)) ->
  In "temp" (map fst (columns df)) ->
  exists secs CO2 Temp,
    _rpo_extract_tg env file nt err = downsample env secs CO2 Temp nt err /\
    In ("CO2_scaled", CO2) (columns df) /\
    In ("temp", Temp) (columns df) /\
    secs = map (fun s => (s - s0) mod 86400) (s0 :: stamps) /\
    nth_error secs 0 = Some 0 /\
    (forall s, In s secs -> 0 <= s < 86400) /\
    (forall s, 0 <= s - s0 < 86400 -> (s - s0) mod 86400 = s - s0) /\
    (forall s, 86400 <= s - s0 -> (s - s0) mod 86400 < s - s0).
Proof.
  intros Hfile Hidx Hco2 Htemp.
  destruct (column_present _ _ Hco2) as (CO2 & HCO2 & HinC).
  destruct (column_present _ _ Htemp) as (Temp & HTemp & HinT).
  exists (map (fun s => (s - s0) mod 86400) (s0 :: stamps)), CO2, Temp.
  assert (Hframe : _rpo_extract_tg_checks env file = Ok df).
  { unfold _rpo_extract_tg_checks.
    assert (match file with
            | FileStr path => read_csv env path
            | FileFrame df => Ok df
            | FileOther _ =>
                Raise (TypeError "file must be pd.DataFrame instance or path string")
            end = Ok df) as ->.
    { destruct Hfile as [->|(path & -> & Hread)]; [reflexivity | exact Hread]. }
    cbn [rbind].
    now rewrite column_test_is_temp_only, (not_in_columns_false _ _ Htemp), Hidx. }
  split.
  { unfold _rpo_extract_tg. rewrite Hframe. cbn [rbind].
    rewrite Hidx. cbn [rbind]. rewrite HCO2. cbn [rbind]. rewrite HTemp.
    reflexivity. }
  repeat split; try assumption.
  - cbn [map nth_error]. now rewrite Z.sub_diag.
  - apply in_map_iff in H as (s' & <- & _). now apply Z.mod_pos_bound.
  - apply in_map_iff in H as (s' & <- & _). now apply Z.mod_pos_bound.
  - intros s Hs. now apply Z.mod_small.
  - intros s Hs.
    pose proof (Z.mod_pos_bound (s - s0) 86400 eq_refl). lia.
Qed.

End ExtractTgMore.

(** ** [calc_L_curve]: edges *)

Section LCurveMore.

Context {F : Type} {NF : Float64 F} {IM : model.Imports F}.

Variables (self : model.Model F) (timedata : model.pyobject F).

Lemma outcome_bind_raises {A B} (m : Py F A) (f : A -> Py F B) :
  (forall a, exists e, outcome (f a) = Raise e) ->
  exists e, outcome (bind m f) = Raise e.
Proof.
  intros Hf. destruct m as [log [a|e]]; simpl; [|eauto].
  destruct (Hf a) as [e He]. destruct (f a) as [log' r]. simpl in *. eauto.
Qed.

(** With no omega to choose from, no index is a valid one. *)
Lemma corner_of_empty (x y : list F) (ax : option string) (plot : bool) :
  exists e, outcome (corner_of [] x y ax plot) = Raise e.
Proof.
  unfold corner_of.
  apply outcome_bind_raises; intros d1.
  apply outcome_bind_raises; intros d2.
  apply outcome_bind_raises; intros k.
  apply outcome_bind_raises; intros i.
  assert (model.getitem (@nil F) i = Raise (IndexError "index is out of bounds"))
    as -> by (destruct i; reflexivity).
  rewrite bind_lift_raise. eexists. reflexivity.
Qed.

Lemma np_linspace_zero (start stop : F) : model.np_linspace start stop 0 = Ok [].
Proof. reflexivity. Qed.

(** X15. With [nOm = 0], [calc_L_curve] never returns an omega and never
    calls the inverter: whatever the other arguments and whatever the
    helpers return, the call ends with an exception. *)
Theorem calc_L_curve_no_samples (ax : option string) (nOm om_max om_min : pyval F)
    (plot : bool) :
  int_value nOm = Some 0 ->
  let run := model.calc_L_curve self timedata ax nOm om_max om_min plot in
  (exists e, outcome run = Raise e) /\ calc_f_calls (events run) = [].
Proof.
  intros Hn. cbv zeta. unfold model.calc_L_curve. rewrite Hn.
  destruct (float_value om_max) as [mx|]; [|split; [eexists|]; reflexivity].
  destruct (float_value om_min) as [mn|]; [|split; [eexists|]; reflexivity].
  rewrite np_linspace_zero, bind_lift_ok. cbn [map model.sweep].
  rewrite bind_ret_l.
  change (bind (model.call_round_to_sigfig (map f_log10 []) 6) _)
    with (after_sweep [] [] [] ax plot).
  split; [|apply after_sweep_no_calc_f].
  unfold after_sweep. cbv zeta.
  apply outcome_bind_raises; intros x.
  apply outcome_bind_raises; intros y.
  apply corner_of_empty.
Qed.

(** *** Plotting *)







End LCurveMore.

(** ** [calc_L_curve]: errors of the helpers, and NaN curvatures *)

Section LCurveHelpers.

Context {F : Type} {NF : Float64 F} {IM : model.Imports F}.

Variables (self : model.Model F) (timedata : model.pyobject F).

(** Once the sweep has gone through, the method is what [after_sweep]
    does, after the inverter calls. *)
Lemma calc_L_curve_after_sweep (ax : option string) (nOm om_max om_min : pyval F)
    (plot : bool) (mx mn : F) (n : Z) (es : list F) :
  float_value om_max = Some mx -> float_value om_min = Some mn ->
  int_value nOm = Some n ->
  model.np_linspace (f_log10 mn) (f_log10 mx) n = Ok es ->
  let om_vec := map (f_pow (f_of_Z 10)) es in
  inverts self timedata om_vec ->
  let rest := after_sweep om_vec (map (residual_of self timedata) om_vec)
                (map (roughness_of self timedata) om_vec) ax plot in
  model.calc_L_curve self timedata ax nOm om_max om_min plot
  = ((map (@Called_calc_f F) om_vec ++ events rest)%list, outcome rest).
Proof.
  intros Hmx Hmn Hn Hes om_vec Hinv rest.
  rewrite (calc_L_curve_checked self timedata ax _ _ _ plot Hmx Hmn Hn).
  rewrite Hes, bind_lift_ok. cbv zeta. fold om_vec.
  rewrite (sweep_ok [] [] Hinv). cbn [app]. unfold bind. cbn [fst snd].
  fold rest. destruct rest. reflexivity.
Qed.

(** X17. No error of a helper is caught after the sweep either.  When
    [round_to_sigfig] raises on the log-residuals, the method ends with that
    error and rounds nothing else; when it raises on the log-roughnesses, or
    [derivatize] raises on the rounded vectors, the method ends with that
    error, and in each case nothing has been called after the call that
    raised. *)
Theorem calc_L_curve_helper_errors (ax : option string)
    (nOm om_max om_min : pyval F) (plot : bool) (mx mn : F) (n : Z)
    (es : list F) (e : exn) :
  float_value om_max = Some mx -> float_value om_min = Some mn ->
  int_value nOm = Some n ->
  model.np_linspace (f_log10 mn) (f_log10 mx) n = Ok es ->
  let om_vec := map (f_pow (f_of_Z 10)) es in
  let res_vec := map f_log10 (map (residual_of self timedata) om_vec) in
  let rgh_vec := map f_log10 (map (roughness_of self timedata) om_vec) in
  let run := model.calc_L_curve self timedata ax nOm om_max om_min plot in
  inverts self timedata om_vec ->
  (model.round_to_sigfig res_vec 6 = Raise e ->
   run = ((map (@Called_calc_f F) om_vec
           ++ [Called_round_to_sigfig res_vec 6])%list, Raise e)) /\
  (forall x, model.round_to_sigfig res_vec 6 = Ok x ->
   model.round_to_sigfig rgh_vec 6 = Raise e ->
   run = ((map (@Called_calc_f F) om_vec
           ++ [Called_round_to_sigfig res_vec 6;
               Called_round_to_sigfig rgh_vec 6])%list, Raise e)) /\
  (forall x y, model.round_to_sigfig res_vec 6 = Ok x ->
   model.round_to_sigfig rgh_vec 6 = Ok y ->
   model.derivatize y x = Raise e ->
   run = ((map (@Called_calc_f F) om_vec
           ++ [Called_round_to_sigfig res_vec 6;
               Called_round_to_sigfig rgh_vec 6;
               Called_derivatize y x])%list, Raise e)) /\
  (forall x y d1, model.round_to_sigfig res_vec 6 = Ok x ->
   model.round_to_sigfig rgh_vec 6 = Ok y ->
   model.derivatize y x = Ok d1 -> model.derivatize d1 x = Raise e ->
   run = ((map (@Called_calc_f F) om_vec
           ++ [Called_round_to_sigfig res_vec 6;
               Called_round_to_sigfig rgh_vec 6;
               Called_derivatize y x;
               Called_derivatize d1 x])%list, Raise e)).
Proof.
  intros Hmx Hmn Hn Hes om_vec res_vec rgh_vec run Hinv. subst run.
  rewrite (calc_L_curve_after_sweep ax _ _ _ plot Hmx Hmn Hn Hes Hinv).
  fold om_vec. unfold after_sweep. cbv zeta. fold res_vec rgh_vec.
  rewrite bind_call_round_to_sigfig. repeat split.
  - intros ->. reflexivity.
  - intros x -> Hy. rewrite bind_lift_ok, bind_call_round_to_sigfig, Hy.
    reflexivity.
  - intros x y -> Hy Hd. rewrite bind_lift_ok, bind_call_round_to_sigfig, Hy.
    rewrite bind_lift_ok. unfold corner_of.
    rewrite bind_call_derivatize, Hd. reflexivity.
  - intros x y d1 -> Hy Hd1 Hd2.
    rewrite bind_lift_ok, bind_call_round_to_sigfig, Hy.
    rewrite bind_lift_ok. unfold corner_of.
    rewrite bind_call_derivatize, Hd1, bind_lift_ok.
    rewrite bind_call_derivatize, Hd2. reflexivity.
Qed.

(** *** NaN *)

Lemma argmax_from_nan_best (v : list F) (i ibest : nat) (best : F) :
  f_isnan best = true -> model.argmax_from v i best ibest = ibest.
Proof. intros H. destruct v; simpl; [reflexivity | now rewrite H]. Qed.

Lemma first_nan_index_tail (x : F) (v : list F) (p : nat) :
  first_nan_index (x :: v) (S p) -> f_isnan x = false /\ first_nan_index v p.
Proof.
  intros [Hnan Hbefore]. split.
  - apply (Hbefore 0%nat x); [lia | reflexivity].
  - split; [exact Hnan|].
    intros i y Hi Hy. apply (Hbefore (S i) y); [lia | exact Hy].
Qed.

(** The scan of [np.argmax] stops at the first NaN, when a NaN is [<=]
    nothing. *)
Lemma argmax_from_first_nan (v : list F) :
  (forall x y : F, f_isnan x = true -> f_leb x y = false) ->
  forall (p i ibest : nat) (best : F),
    f_isnan best = false -> first_nan_index v p ->
    model.argmax_from v i best ibest = (i + p)%nat.
Proof.
  intros Hleb. induction v as [|x v IH]; intros p i ibest best Hb Hp.
  - destruct Hp as [(y & Hy & _) _]. destruct p; discriminate Hy.
  - cbn [model.argmax_from]. rewrite Hb. destruct p as [|p].
    + destruct Hp as [(y & Hy & Hnan) _]. injection Hy as ->.
      rewrite (Hleb _ best Hnan). cbn [negb].
      rewrite argmax_from_nan_best by assumption. lia.
    + apply first_nan_index_tail in Hp as [Hx Hv].
      destruct (f_leb x best); cbn [negb]; rewrite (IH p); auto; lia.
Qed.

Lemma np_argmax_first_nan (k : list F) (j : nat) :
  (forall x y : F, f_isnan x = true -> f_leb x y = false) ->
  first_nan_index k j -> model.np_argmax k = Ok j.
Proof.
  intros Hleb Hj. destruct k as [|x v].
  - destruct Hj as [(y & Hy & _) _]. destruct j; discriminate Hy.
  - cbn [model.np_argmax]. f_equal. destruct j as [|j].
    + destruct Hj as [(y & Hy & Hnan) _]. injection Hy as ->.
      now apply argmax_from_nan_best.
    + apply first_nan_index_tail in Hj as [Hx Hv].
      now rewrite (argmax_from_first_nan Hleb) with (p:=j) by assumption.
Qed.

(** X18. A NaN among the curvatures takes the choice: for a sweep that
    goes through, with comparisons that are false on a NaN, [calc_L_curve]
    returns the omega at the first index whose curvature is a NaN, whatever
    the other curvatures are. *)
Theorem calc_L_curve_first_nan (ax : option string)
    (nOm om_max om_min : pyval F) (mx mn : F) (n : Z)
    (es x y d1 d2 : list F) (j : nat) :
  (forall a b : F, f_isnan a = true -> f_leb a b = false) ->
  float_value om_max = Some mx -> float_value om_min = Some mn ->
  int_value nOm = Some n ->
  model.np_linspace (f_log10 mn) (f_log10 mx) n = Ok es ->
  let om_vec := map (f_pow (f_of_Z 10)) es in
  inverts self timedata om_vec ->
  model.round_to_sigfig
    (map f_log10 (map (residual_of self timedata) om_vec)) 6 = Ok x ->
  model.round_to_sigfig
    (map f_log10 (map (roughness_of self timedata) om_vec)) 6 = Ok y ->
  model.derivatize y x = Ok d1 -> model.derivatize d1 x = Ok d2 ->
  List.length d1 = List.length om_vec -> List.length d2 = List.length om_vec ->
  first_nan_index (kappas d1 d2) j ->
  exists om_best,
    nth_error om_vec j = Some om_best /\
    outcome (model.calc_L_curve self timedata ax nOm om_max om_min false)
    = Ok (model.Om_best om_best).
Proof.
  intros Hleb Hmx Hmn Hn Hes om_vec Hinv Hx Hy Hd1 Hd2 L1 L2 Hj.
  assert (L12 : List.length d1 = List.length d2) by congruence.
  assert (Hlt : (j < List.length om_vec)%nat).
  { destruct Hj as [(kj & Hkj & _) _].
    rewrite <- L1, <- (kappas_length _ _ L12). apply nth_error_Some. congruence. }
  destruct (getitem_in_range om_vec Hlt) as (om & Hom & Hnth).
  exists om. split; [exact Hnth|].
  rewrite (calc_L_curve_after_sweep ax _ _ _ false Hmx Hmn Hn Hes Hinv).
  fold om_vec. cbn [outcome snd]. unfold after_sweep. cbv zeta.
  rewrite bind_call_round_to_sigfig, Hx, bind_lift_ok.
  rewrite bind_call_round_to_sigfig, Hy, bind_lift_ok.
  unfold corner_of.
  rewrite bind_call_derivatize, Hd1, bind_lift_ok.
  rewrite bind_call_derivatize, Hd2, bind_lift_ok.
  rewrite (curvature_kappas _ _ L12), bind_lift_ok.
  erewrite np_argmax_first_nan by eassumption. rewrite bind_lift_ok.
  rewrite Hom, bind_lift_ok.
  reflexivity.
Qed.

End LCurveHelpers.

(** ** Keyword calls *)

Section KeywordCalls.

Context {F : Type} {NF : Float64 F} {IM : model.Imports F}.

Lemma bind_keywords_unexpected (kwargs : list (string * pyval F))
    (args : calls.from_timedata_args (F:=F)) :
  (exists k, In k (map fst kwargs) /\ ~ In k calls.from_timedata_params) ->
  exists msg, calls.bind_keywords kwargs args = Raise (TypeError msg).
Proof.
  revert args. induction kwargs as [|[k v] kwargs IH]; intros args (k0 & Hin & Hno).
  - destruct Hin.
  - cbn [calls.bind_keywords].
    assert (Hrest : In k0 (map fst kwargs) \/ k0 = k)
      by (destruct Hin as [<-|Hin]; auto).
    assert (Hnext : forall args', k0 <> k ->
              exists msg, calls.bind_keywords kwargs args' = Raise (TypeError msg)).
    { intros args' Hne. apply IH. exists k0. split; [|exact Hno].
      destruct Hrest; [assumption | contradiction]. }
    destruct (String.eqb_spec k "Ea_max") as [->|_].
    { apply Hnext. intros ->. apply Hno. simpl. auto 10. }
    destruct (String.eqb_spec k "Ea_min") as [->|_].
    { apply Hnext. intros ->. apply Hno. simpl. auto 10. }
    destruct (String.eqb_spec k "log10k0") as [->|_].
    { apply Hnext. intros ->. apply Hno. simpl. auto 10. }
    destruct (String.eqb_spec k "nEa") as [->|_].
    { apply Hnext. intros ->. apply Hno. simpl. auto 10. }
    destruct (String.eqb k "cls" || String.eqb k "timedata"); eexists; reflexivity.
Qed.

(** X19. A call [Daem.from_timedata(timedata, **kwargs)] with a keyword
    that is no parameter of the method ([cls], [timedata], [Ea_max],
    [Ea_min], [log10k0], [nEa]) raises a [TypeError] before the body runs:
    nothing is warned, nothing is built.  The keywords of the call in
    [tests/test_script.py] ([E_max], [E_min], [nE]) are of this kind. *)
Theorem call_from_timedata_unexpected (timedata : model.pyobject F)
    (kwargs : list (string * pyval F)) :
  (exists k, In k (map fst kwargs) /\ ~ In k calls.from_timedata_params) ->
  exists msg,
    calls.call_from_timedata timedata kwargs = ([], Raise (TypeError msg)).
Proof.
  intros H. unfold calls.call_from_timedata.
  destruct (@bind_keywords_unexpected kwargs calls.from_timedata_defaults H)
    as [msg ->].
  exists msg. reflexivity.
Qed.

End KeywordCalls.

(** ** The further properties, run *)

Section MoreRuns.

Import QNum QRun.

Lemma Model_init_rebuild_witness :
  let m := {| model.self_A := PyArray (F:=Q) [PyArray [PyInt 1]; PyArray [PyInt 1]];
              model.self_model_type := "Daem";
              model.self_nt := 2;
              model.self_t := PyArray [PyInt 0; PyInt 1];
              model.self_T := float_array (map (f_mul 373%Q) (np_ones 2)) |} in
  model.Model__init__ (IM:=plain_imports) (model.self_A m) (model.self_model_type m)
    (model.self_t m) (model.self_T m) = Ok m.
Proof.
  intros m.
  apply (@Model_init_rebuild Q Q_Float64 plain_imports (fun _ _ => eq_refl)
           (PyList [PyList [PyInt 1]; PyList [PyInt 1]]) "Daem"
           (PyList [PyInt 0; PyInt 1]) (PyInt 373) m).
  reflexivity.
Defined.

Lemma Daem_init_builds_witness :
  exists d,
    model.Daem__init__ (IM:=plain_imports)
      (PyList [PyInt 50; PyInt 60]) (PyInt 10)
      (PyList [PyInt 0; PyInt 1; PyInt 2]) (PyList [PyInt 373; PyInt 374; PyInt 375])
    = ([], Ok d) /\ model.self_nEa d = 2%nat /\ model.self_nt (model.daem_super d) = 3%nat.
Proof.
  eexists. split.
  - eapply (@Daem_init_builds Q Q_Float64 plain_imports (fun _ _ => eq_refl)
              (PyList [PyInt 50; PyInt 60]) (PyInt 10)
              (PyList [PyInt 0; PyInt 1; PyInt 2])
              (PyList [PyInt 373; PyInt 374; PyInt 375]) _ 3 2); reflexivity.
  - split; reflexivity.
Defined.


Lemma from_timedata_builds_witness :
  exists Ea d,
    List.length Ea = 3%nat /\
    model.Daem_from_timedata (IM:=plain_imports) a_thermogram 350%Q 50%Q (PyInt 10) 3
    = ([], Ok d) /\
    model.self_Ea d = float_array Ea /\ model.self_nEa d = 3%nat.
Proof.
  edestruct (@from_timedata_builds Q Q_Float64 plain_imports (fun _ _ => eq_refl)
               a_thermogram 350%Q 50%Q (PyInt 10) 3
               (PyList [PyInt 0; PyInt 1; PyInt 2])
               (PyList [PyInt 373; PyInt 374; PyInt 375])
               (PyArray (repeat (float_array (np_ones 3)) 3)) 3)
    as (Ea & HEa & Hlen & Hrun).
  - reflexivity.
  - discriminate.
  - reflexivity.
  - reflexivity.
  - reflexivity.
  - reflexivity.
  - reflexivity.
  - reflexivity.
  - intros Ea HEa. injection HEa as <-. reflexivity.
  - reflexivity.
  - reflexivity.
  - exists Ea. eexists. split; [exact Hlen|]. split; [exact Hrun|].
    split; reflexivity.
Defined.

Lemma from_timedata_isothermal_witness :
  model.Daem_from_timedata (IM:=plain_imports)
    an_isothermal_thermogram 350%Q 50%Q (PyInt 10) 250
  = ([], Raise (NameError "warnings")).
Proof.
  apply (@from_timedata_isothermal Q Q_Float64 plain_imports an_isothermal_thermogram
           350%Q 50%Q (PyInt 10) 250
           (PyList [PyInt 0; PyInt 1; PyInt 2]) (PyInt 373)).
  - reflexivity.
  - discriminate.
  - reflexivity.
  - reflexivity.
  - reflexivity.
Defined.

Lemma from_ratedata_builds_witness :
  exists t d,
    List.length t = 3%nat /\
    model.Daem_from_ratedata (IM:=plain_imports)
      an_energy_complex (1 # 2)%Q (PyInt 10) 3 0%Q 373%Q 100%Q
    = ([], Ok d) /\
    model.self_t (model.daem_super d) = float_array t /\
    model.self_T (model.daem_super d)
    = float_array (map (fun ti => f_add 373%Q (f_mul (1 # 2)%Q ti)) t).
Proof.
  edestruct (@from_ratedata_builds Q Q_Float64 plain_imports (fun _ _ => eq_refl)
               an_energy_complex (1 # 2)%Q (PyInt 10) 3 0%Q 373%Q 100%Q
               (PyList [PyInt 50; PyInt 60])
               (PyArray (repeat (float_array (np_ones 2)) 3)) 2)
    as (t & Ht & Hlen & Hrun).
  - reflexivity.
  - discriminate.
  - reflexivity.
  - reflexivity.
  - reflexivity.
  - intros t Ht. injection Ht as <-. reflexivity.
  - reflexivity.
  - reflexivity.
  - exists t. eexists. split; [exact Hlen|]. split; [exact Hrun|].
    split; reflexivity.
Defined.

Lemma derivatize_result_length_witness :
  exists n, py_len (PyList (F:=Q) [PyInt 3; PyInt 2; PyInt 1]) = Ok n /\
            py_len (PyArray [PyFloat (-1)%Q; PyFloat (-6 # 4)%Q; PyFloat (-2)%Q]) = Ok n /\
            (2 <= n)%nat.
Proof.
  apply (@derivatize_result_length Q Q_Float64 (PyList [PyInt 1; PyInt 2; PyInt 4])
           (PyList [PyInt 3; PyInt 2; PyInt 1])).
  reflexivity.
Defined.

Lemma derivatize_scalar_num_raises_witness :
  timedata_helper._derivatize (PyInt 5) (PyList (F:=Q) [PyInt 1; PyInt 2; PyInt 3])
  = Raise (ValueError "num and denom arrays must have same length").
Proof.
  apply (proj2 (@derivatize_scalar_num_raises Q Q_Float64 (PyInt 5)
                  (PyList [PyInt 1; PyInt 2; PyInt 3]) eq_refl) [1; 2; 3]%Q).
  - reflexivity.
  - simpl. lia.
Defined.

Lemma derivatize_short_num_witness :
  exists v,
    timedata_helper._derivatize (PyList (F:=Q) [PyInt 5])
      (PyList [PyInt 1; PyInt 2; PyInt 3]) = Ok (float_array v) /\
    List.length v = 3%nat.
Proof.
  eexists. split.
  - apply (@derivatize_short_num Q Q_Float64 (PyList [PyInt 5])
             (PyList [PyInt 1; PyInt 2; PyInt 3]) [5%Q] [1; 2; 3]%Q).
    + reflexivity.
    + simpl. lia.
    + reflexivity.
    + simpl. lia.
  - reflexivity.
Defined.

Lemma derivatize_length_errors_witness :
  timedata_helper._derivatize (PyList (F:=Q) [PyInt 1; PyInt 2])
    (PyList [PyInt 1; PyInt 2; PyInt 3])
  = Raise (ValueError "num and denom arrays must have same length").
Proof.
  apply (proj1 (@derivatize_length_errors Q Q_Float64 (PyList [PyInt 1; PyInt 2])
                  (PyList [PyInt 1; PyInt 2; PyInt 3]) [1; 2]%Q [1; 2; 3]%Q
                  eq_refl eq_refl)).
  - simpl. lia.
  - simpl. lia.
  - discriminate.
Defined.

Lemma rpo_extract_tg_checks_cases_witness :
  timedata_helper._rpo_extract_tg_checks an_extract_env
    (timedata_helper.FileFrame a_frame) = Ok a_frame.
Proof.
  apply (proj2 (proj2 (@rpo_extract_tg_checks_cases Q Q_Float64 an_extract_env a_frame)))
    with (stamps := [100; 86500; 86501]).
  - simpl. auto.
  - reflexivity.
Defined.

Lemma rpo_extract_tg_hands_on_witness :
  exists secs CO2 Temp,
    timedata_helper._rpo_extract_tg a_file_env
      (timedata_helper.FileStr "all_data.csv") (PyInt 250) (PyInt 5)
    = timedata_helper.downsample a_file_env secs CO2 Temp (PyInt 250) (PyInt 5) /\
    secs = [0; 0; 1].
Proof.
  edestruct (@rpo_extract_tg_hands_on Q Q_Float64 a_file_env
               (timedata_helper.FileStr "all_data.csv") a_frame 100 [86500; 86501]
               (PyInt 250) (PyInt 5))
    as (secs & CO2 & Temp & Hrun & _ & _ & Hsecs & _).
  - right. exists "all_data.csv". split; reflexivity.
  - reflexivity.
  - simpl. auto.
  - simpl. auto.
  - exists secs, CO2, Temp. split; [exact Hrun | exact Hsecs].
Defined.

Lemma calc_L_curve_no_samples_witness :
  calc_f_calls
    (events (model.calc_L_curve (IM:=plain_imports) a_model a_thermogram None
               (PyInt 0) (PyInt 100) (PyFloat (1 # 1000)%Q) false)) = [].
Proof.
  apply (proj2 (@calc_L_curve_no_samples Q Q_Float64 plain_imports a_model a_thermogram None
                  (PyInt 0) (PyInt 100) (PyFloat (1 # 1000)%Q) false eq_refl)).
Defined.

Lemma calc_L_curve_helper_errors_witness :
  model.calc_L_curve (IM:=rounding_fails_imports) a_model a_thermogram None
    (PyInt 3) (PyInt 100) (PyInt 1) false
  = ((map (@Called_calc_f Q) [1; 10; 100]%Q
      ++ [Called_round_to_sigfig [1; 4; 7]%Q 6])%list,
     Raise (ValueError "cannot round")).
Proof.
  edestruct (@calc_L_curve_helper_errors Q Q_Float64 rounding_fails_imports
               a_model a_thermogram None (PyInt 3) (PyInt 100) (PyInt 1) false)
    as (H & _).
  - reflexivity.
  - reflexivity.
  - reflexivity.
  - vm_compute. reflexivity.
  - intros w _. simpl. unfold corner_inverter.
    destruct (Qle_bool w 1); reflexivity.
  - exact (H eq_refl).
Defined.

Lemma call_from_timedata_unexpected_witness :
  exists msg,
    calls.call_from_timedata (IM:=plain_imports) a_thermogram
      test_script.from_timedata_kwargs
    = ([], Raise (TypeError msg)).
Proof.
  apply (@call_from_timedata_unexpected Q Q_Float64 plain_imports a_thermogram
           test_script.from_timedata_kwargs).
  exists "E_max". split.
  - simpl. auto.
  - simpl. intros H.
    repeat (destruct H as [H|H]; [discriminate H|]). exact H.
Defined.

End MoreRuns.

Section NaNRuns.

Import NaNQ.

Lemma calc_L_curve_first_nan_witness :
  outcome (model.calc_L_curve (IM:=flat_imports) a_model a_thermogram None
             (PyInt 3) (PyInt 100) (PyInt 1) false)
  = Ok (model.Om_best (Some 1%Q)).
Proof.
  edestruct (@calc_L_curve_first_nan (option Q) NaNQ_Float64 flat_imports a_model a_thermogram
               None (PyInt 3) (PyInt 100) (PyInt 1))
    with (j := 0%nat) as (om & Hom & Hrun).
  - intros a b Ha. destruct a; [discriminate Ha | reflexivity].
  - reflexivity.
  - reflexivity.
  - reflexivity.
  - vm_compute. reflexivity.
  - intros w Hw. simpl in Hw.
    destruct Hw as [<-|[<-|[<-|[]]]]; reflexivity.
  - vm_compute. reflexivity.
  - vm_compute. reflexivity.
  - vm_compute. reflexivity.
  - vm_compute. reflexivity.
  - reflexivity.
  - reflexivity.
  - split.
    + eexists. split; reflexivity.
    + intros i x Hi. lia.
  - rewrite Hrun. f_equal. f_equal. vm_compute in Hom. congruence.
Defined.

Lemma NaNQ_leb_order : leb_order (F:=option Q).
Proof.
  split.
  - intros [a|] [b|] Ha Hb; try discriminate. simpl.
    destruct (Qlt_le_dec b a) as [H|H].
    + right. apply Qle_bool_iff. now apply Qlt_le_weak.
    + left. now apply Qle_bool_iff.
  - intros [a|] [b|] [c|]; simpl; try discriminate. intros Hab Hbc.
    apply Qle_bool_iff. apply Qle_bool_iff in Hab, Hbc.
    eapply Qle_trans; eauto.
Defined.

(** C3 fails as written on a sweep with a plateau: the residual staying
    at 10 up to [omega = 1], the gradient of the rounded log-residual is zero
    there, the curvatures of the first sweep points are NaN, and the omega
    returned is the first of the sweep, [0.001], at an index where the
    curvature is not the maximum of anything. *)
Lemma calc_L_curve_plateau_returns_first_nan :
  let run := model.calc_L_curve (IM:=plateau_imports) a_model a_thermogram None
               (PyInt 6) (PyInt 100) (PyFloat (Some (1 # 1000)%Q)) false in
  let x := [Some 1; Some 1; Some 1; Some 1; Some 4; Some 7]%Q in
  let y := [Some 9; Some 7; Some 5; Some 3; Some 3; Some 3]%Q in
  let d1 := [None; None; None; Some (-4 # 6); Some (0 # 12); Some (0 # 3)]%Q in
  let d2 := [None; None; None; None; Some (24 # 216); Some (0 # 108)]%Q in
  In (Called_derivatize y x) (events run) /\
  model.derivatize (Imports:=plateau_imports) y x = Ok d1 /\
  In (Called_derivatize d1 x) (events run) /\
  model.derivatize (Imports:=plateau_imports) d1 x = Ok d2 /\
  kappas d1 d2
  = [None; None; None; None; Some (3456 # 31104); Some (0 # 972)]%Q /\
  outcome run = Ok (model.Om_best (Some (1 # 1000)%Q)) /\
  ~ first_max_index (kappas d1 d2) 0.
Proof.
  cbv zeta.
  split; [vm_compute; do 8 right; left; reflexivity|].
  split; [vm_compute; reflexivity|].
  split; [vm_compute; do 9 right; left; reflexivity|].
  split; [vm_compute; reflexivity|].
  split; [vm_compute; reflexivity|].
  split; [vm_compute; reflexivity|].
  intros (ki & Hki & Hall & _).
  vm_compute in Hki. injection Hki as <-.
  specialize (Hall 4%nat (Some (3456 # 31104)%Q) eq_refl).
  discriminate Hall.
Qed.

Lemma calc_L_curve_first_max_curvature_witness :
  exists i d1 d2,
    outcome (model.calc_L_curve (IM:=bend_imports) a_model a_thermogram None
               (PyInt 5) (PyInt 100) (PyFloat (Some (1 # 100)%Q)) false)
    = Ok (model.Om_best (Some 1%Q)) /\
    nth_error [Some (1 # 100); Some (1 # 10); Some 1; Some 10; Some 100]%Q i
    = Some (Some 1%Q) /\
    nan_free (kappas d1 d2) /\
    first_max_index (kappas d1 d2) i.
Proof.
  edestruct (@calc_L_curve_first_max_curvature (option Q) NaNQ_Float64 bend_imports
               a_model a_thermogram NaNQ_leb_order None
               (PyInt 5) (PyInt 100) (PyFloat (Some (1 # 100)%Q)) false)
    as (i & om & r & Hr & Hom & Hnth & Hfirst & _).
  - reflexivity.
  - reflexivity.
  - reflexivity.
  - reflexivity.
  - vm_compute; reflexivity.
  - intros w Hw. simpl in Hw.
    destruct Hw as [<-|[<-|[<-|[<-|[<-|[]]]]]]; reflexivity.
  - vm_compute; reflexivity.
  - vm_compute; reflexivity.
  - vm_compute; reflexivity.
  - vm_compute; reflexivity.
  - reflexivity.
  - reflexivity.
  - reflexivity.
  - reflexivity.
  - intros k Hk. vm_compute in Hk.
    destruct Hk as [<-|[<-|[<-|[<-|[<-|[]]]]]]; reflexivity.
  - assert (Hrun : outcome
                     (model.calc_L_curve (IM:=bend_imports) a_model a_thermogram
                        None (PyInt 5) (PyInt 100) (PyFloat (Some (1 # 100)%Q))
                        false)
                   = Ok (model.Om_best (Some 1%Q))) by (vm_compute; reflexivity).
    rewrite Hrun in Hr. injection Hr as <-. simpl in Hom. subst om.
    exists i. eexists _, _.
    split; [reflexivity|]. split; [exact Hnth|].
    split; [|exact Hfirst].
    intros k Hk. vm_compute in Hk.
    destruct Hk as [<-|[<-|[<-|[<-|[<-|[]]]]]]; reflexivity.
Defined.


(** The sweep of the two witnesses, run: the corner is found at
    [omega = 1]. *)
Example calc_L_curve_bend_run :
  outcome (model.calc_L_curve (IM:=bend_imports) a_model a_thermogram None
             (PyInt 5) (PyInt 100) (PyFloat (Some (1 # 100)%Q)) false)
  = Ok (model.Om_best (Some 1%Q)).
Proof. vm_compute. reflexivity. Qed.

End NaNRuns.
